(** * lsst.validate.base: names, blobs, metrics and measurements

    A shallow embedding of [naming.py], [blob.py], [metric.py] and
    [measurement.py].  Python objects become records, [dict]s become
    [gmap]s, raised exceptions become the [Raise] case of [Res], and the
    attribute mutations of a method become an explicit new [self]. *)

From Stdlib Require Import Ascii String.
From stdpp Require Import base option strings list gmap fin_maps countable pretty.

Open Scope string_scope.

(** ** Python exceptions and results *)

Inductive Field := FPackage | FMetric | FSpec.

(** The exception classes raised by the four modules.  [UnitTypeError] is
    [astropy.units.UnitTypeError]. *)
Inductive ExcClass :=
| TypeError
| ValueError
| KeyError
| AttributeError
| NotImplementedError
| UnitTypeError.

(** What the message of an exception says (its text is not modelled). *)
Inductive Reason :=
| CannotParse (what : Field) (text : string)
| NoInformation (what : Field)
| Conflicting (what : Field) (value : string)
| MissingMetric
| NameNotString
| KeyNotString
| NotADatum
| MultipleValues
| UnexpectedKeyword (keyword : string)
| MissingArgument (param : string)
| InvalidUnit
| NoneHasNoAttribute (attr : string)
| MissingKey
| CannotAutoload
| NoMessage.

Record PyExc := Exc { exc_class : ExcClass; exc_reason : Reason }.

Inductive Res (A : Type) :=
| Ok (a : A)
| Raise (e : PyExc).
Arguments Ok {A} a.
Arguments Raise {A} e.

#[global] Instance Res_ret : MRet Res := fun A a => Ok a.
#[global] Instance Res_bind : MBind Res := fun A B f m =>
  match m with
  | Ok a => f a
  | Raise e => Raise e
  end.

Definition raises {A} (r : Res A) : bool :=
  match r with
  | Ok _ => false
  | Raise _ => true
  end.

(** [isinstance(e, TypeError)]: [KeyError] derives from [LookupError];
    astropy declares [UnitTypeError(UnitsError, TypeError)]. *)
Definition is_TypeError (e : PyExc) : bool :=
  match exc_class e with
  | TypeError | UnitTypeError => true
  | _ => false
  end.

Definition is_KeyError (e : PyExc) : bool :=
  match exc_class e with
  | KeyError => true
  | _ => false
  end.

(** [==] on values that are [None] or a [str]. *)
Definition py_eq (a b : option string) : bool := bool_decide (a = b).

(** [str.format] of a value that is [None] or a [str]. *)
Definition py_format (a : option string) : string := default "None" a.

(** ** [str.split('.')] and ['.'.join] *)

Definition is_dot (c : ascii) : bool := Ascii.eqb c "."%char.

Fixpoint split_dot (s : string) : list string :=
  match s with
  | EmptyString => [EmptyString]
  | String c rest =>
      if is_dot c then EmptyString :: split_dot rest
      else match split_dot rest with
           | part :: parts => String c part :: parts
           | [] => [String c EmptyString]
           end
  end.

Fixpoint join_dot (parts : list string) : string :=
  match parts with
  | [] => EmptyString
  | [part] => part
  | part :: rest => part +:+ "." +:+ join_dot rest
  end.

(** [str.rstrip('\n')]. *)
Definition is_newline (c : ascii) : bool := Ascii.eqb c "010"%char.

Fixpoint rstrip_newline (s : string) : string :=
  match s with
  | EmptyString => EmptyString
  | String c rest =>
      match rstrip_newline rest with
      | EmptyString => if is_newline c then EmptyString else String c EmptyString
      | kept => String c kept
      end
  end.

(** ** Binding the arguments of a call

    [bind_arguments params bound var_kw keywords] is the check Python makes
    when a function with the positional-or-keyword parameters [params]
    (those without a default listed in [required]) is called with the first
    [bound] of them given positionally and with the keyword arguments
    [keywords]: a keyword naming a parameter that is already bound, or
    naming no parameter when the function has no [**kwargs], is a
    [TypeError], and so is a required parameter left unbound. *)

Definition bind_keyword (params : list string) (bound : nat) (var_kw : bool)
    (keyword : string) : Res unit :=
  if bool_decide (keyword ∈ take bound params) then
    Raise (Exc TypeError MultipleValues)
  else if bool_decide (keyword ∈ drop bound params) then Ok ()
  else if var_kw then Ok ()
  else Raise (Exc TypeError (UnexpectedKeyword keyword)).

Fixpoint bind_keywords (params : list string) (bound : nat) (var_kw : bool)
    (keywords : list string) : Res unit :=
  match keywords with
  | [] => Ok ()
  | keyword :: rest =>
      _ ← bind_keyword params bound var_kw keyword;
      bind_keywords params bound var_kw rest
  end.

Fixpoint check_required (required : list string) (given : list string) : Res unit :=
  match required with
  | [] => Ok ()
  | param :: rest =>
      if bool_decide (param ∈ given) then check_required rest given
      else Raise (Exc TypeError (MissingArgument param))
  end.

Definition bind_arguments (params required : list string) (bound : nat)
    (var_kw : bool) (keywords : list string) : Res unit :=
  _ ← bind_keywords params bound var_kw keywords;
  check_required required (take bound params ++ keywords).

(** ** naming.py *)

Module Name.

Record t := mk {
  _package : option string;
  _metric : option string;
  _spec : option string
}.

(** An argument of [Name(...)]: [None], a [str] or a [Name]. *)
Inductive arg :=
| ANone
| AStr (s : string)
| AName (n : t).

Definition package (self : t) : option string := _package self.
Definition metric (self : t) : option string := _metric self.
Definition spec (self : t) : option string := _spec self.

Definition has_package (self : t) : bool :=
  match package self with Some _ => true | None => false end.

Definition has_spec (self : t) : bool :=
  match spec self with Some _ => true | None => false end.

Definition has_metric (self : t) : bool :=
  match metric self with Some _ => true | None => false end.

Definition is_spec (self : t) : bool :=
  if has_spec self then true else false.

Definition is_metric (self : t) : bool :=
  if has_metric self && negb (has_spec self) then true else false.

Definition is_package (self : t) : bool :=
  if has_package self && negb (is_metric self) && negb (is_spec self)
  then true else false.

Definition has_relative (self : t) : bool :=
  if is_spec self && has_metric self then true else false.

Definition is_fq (self : t) : bool :=
  if is_package self then true
  else if is_metric self && has_package self then true
  else if is_spec self && has_package self && has_metric self then true
  else false.

Definition is_relative (self : t) : bool :=
  if is_spec self && has_metric self && negb (has_package self)
  then true else false.

Definition _parse_fqn_string (fqn : string)
    : Res (option string * option string * option string) :=
  match split_dot fqn with
  | [p] => Ok (Some p, None, None)
  | [p; m] => Ok (Some p, Some m, None)
  | [p; m; s] => Ok (Some p, Some m, Some s)
  | _ => Raise (Exc ValueError (CannotParse FPackage fqn))
  end.

Definition _parse_metric_name_string (name : string)
    : Res (option string * option string) :=
  match split_dot name with
  | [p; m] => Ok (Some p, Some m)
  | [m] => Ok (None, Some m)
  | _ => Raise (Exc ValueError (CannotParse FMetric name))
  end.

Definition _parse_spec_name_string (name : string)
    : Res (option string * option string * option string) :=
  match split_dot name with
  | [s] => Ok (None, None, Some s)
  | [m; s] => Ok (None, Some m, Some s)
  | [p; m; s] => Ok (Some p, Some m, Some s)
  | _ => Raise (Exc ValueError (CannotParse FSpec name))
  end.

(** [except ValueError as e: raise TypeError(str(e))]. *)
Definition reraise_as_TypeError {A} (r : Res A) : Res A :=
  match r with
  | Raise (Exc ValueError why) => Raise (Exc TypeError why)
  | other => other
  end.

Definition _init_new_package_info (self : t) (package : option string) : Res t :=
  match package with
  | None => Ok self
  | Some p =>
      if bool_decide (_package self = None) || py_eq package (_package self)
      then Ok (mk package (_metric self) (_spec self))
      else Raise (Exc TypeError (Conflicting FPackage p))
  end.

Definition _init_new_metric_info (self : t) (metric : option string) : Res t :=
  match metric with
  | None => Ok self
  | Some m =>
      if bool_decide (_metric self = None) || py_eq metric (_metric self)
      then Ok (mk (_package self) metric (_spec self))
      else Raise (Exc TypeError (Conflicting FMetric m))
  end.

Definition _init_new_spec_info (self : t) (spec : option string) : Res t :=
  match spec with
  | None => Ok self
  | Some s =>
      if bool_decide (_spec self = None) || py_eq spec (_spec self)
      then Ok (mk (_package self) (_metric self) spec)
      else Raise (Exc TypeError (Conflicting FSpec s))
  end.

(** What an argument says, by the field it is passed as: the values the
    block of [__init__] for that field reads off it. *)

Definition package_info (package : arg)
    : Res (option string * option string * option string) :=
  match package with
  | ANone => Ok (None, None, None)
  | AName n => Ok (Name.package n, Name.metric n, Name.spec n)
  | AStr s => reraise_as_TypeError (_parse_fqn_string s)
  end.

Definition metric_info (metric : arg)
    : Res (option string * option string * option string) :=
  match metric with
  | ANone => Ok (None, None, None)
  | AName n =>
      if negb (has_metric n)
      then Raise (Exc TypeError (NoInformation FMetric))
      else Ok (Name.package n, Name.metric n, Name.spec n)
  | AStr s =>
      '(_package, _metric) ← reraise_as_TypeError (_parse_metric_name_string s);
      Ok (_package, _metric, None)
  end.

Definition spec_info (spec : arg)
    : Res (option string * option string * option string) :=
  match spec with
  | ANone => Ok (None, None, None)
  | AName n =>
      if negb (has_spec n)
      then Raise (Exc TypeError (NoInformation FSpec))
      else Ok (Name.package n, Name.metric n, Name.spec n)
  | AStr s => reraise_as_TypeError (_parse_spec_name_string s)
  end.

(** "Ensure none of the new information is inconsistent": the three calls
    that end the metric block and the spec block. *)
Definition init_new_info (self : t)
    (info : option string * option string * option string) : Res t :=
  let '(_package, _metric, _spec) := info in
  self ← _init_new_package_info self _package;
  self ← _init_new_metric_info self _metric;
  _init_new_spec_info self _spec.

(** The three blocks of [__init__], one per argument. *)

Definition init_package (package : arg) : Res t :=
  match package with
  | ANone => Ok (mk None None None)
  | _ =>
      '(_package, _metric, _spec) ← package_info package;
      Ok (mk _package _metric _spec)
  end.

Definition init_metric (self : t) (metric : arg) : Res t :=
  match metric with
  | ANone => Ok self
  | _ => info ← metric_info metric; init_new_info self info
  end.

Definition init_spec (self : t) (spec : arg) : Res t :=
  match spec with
  | ANone => Ok self
  | _ => info ← spec_info spec; init_new_info self info
  end.

(** The components once the three arguments are processed. *)
Definition merge_arguments (package metric spec : arg) : Res t :=
  self ← init_package package;
  self ← init_metric self metric;
  init_spec self spec.

(** "Ensure the name doesn't have a metric gap": package and spec are set
    and the metric is not. *)
Definition metric_gap (self : t) : bool :=
  match _package self, _spec self, _metric self with
  | Some _, Some _, None => true
  | _, _, _ => false
  end.

Definition check_metric_gap (self : t) : Res t :=
  if metric_gap self then Raise (Exc TypeError MissingMetric) else Ok self.

Definition __init__ (package metric spec : arg) : Res t :=
  self ← merge_arguments package metric spec;
  check_metric_gap self.

Definition __eq__ (self other : t) : bool :=
  py_eq (package self) (package other)
  && py_eq (metric self) (metric other)
  && py_eq (spec self) (spec other).

Definition __contains__ (self name : t) : bool :=
  let contains := true in
  if is_package self then
    if is_package name then false
    else py_eq (package self) (package name)
  else if is_metric self then
    if is_metric name then false
    else
      let contains :=
        if has_package self || has_package name
        then contains && py_eq (package self) (package name)
        else contains in
      contains && py_eq (metric self) (metric name)
  else false.

(** [__str__]; a component that is [None] is formatted as ["None"]. *)
Definition __str__ (self : t) : string :=
  if is_package self then py_format (package self)
  else if is_metric self && negb (is_fq self) then py_format (metric self)
  else if is_metric self && is_fq self then
    py_format (package self) +:+ "." +:+ py_format (metric self)
  else if is_spec self && negb (is_fq self) && negb (is_relative self) then
    py_format (spec self)
  else if is_spec self && negb (is_fq self) && is_relative self then
    py_format (metric self) +:+ "." +:+ py_format (spec self)
  else
    py_format (package self) +:+ "." +:+ py_format (metric self)
      +:+ "." +:+ py_format (spec self).

Definition fqn (self : t) : Res string :=
  if is_fq self then Ok (__str__ self)
  else Raise (Exc AttributeError NoMessage).

Definition relative_name (self : t) : Res string :=
  if has_relative self
  then Ok (py_format (metric self) +:+ "." +:+ py_format (spec self))
  else Raise (Exc AttributeError NoMessage).

(** Names are dictionary keys: [__eq__] and [__hash__] read the triple. *)
#[global] Instance eq_dec : EqDecision t.
Proof. solve_decision. Defined.

Definition to_triple (n : t) : option string * option string * option string :=
  (_package n, _metric n, _spec n).

Definition of_triple (x : option string * option string * option string) : t :=
  mk x.1.1 x.1.2 x.2.

#[global] Instance countable : Countable t.
Proof.
  apply (inj_countable' to_triple of_triple).
  intros []; reflexivity.
Defined.

End Name.

(** ** Identifiers: [uuid.uuid4().hex]

    Identifiers come from the system's random source.  A run is given the
    sequence [uuid4_hex] of the strings the source yields, and threads the
    number of draws made so far; [M] is that state together with [Res]. *)

Definition M (A : Type) : Type := nat → Res A * nat.

#[global] Instance M_ret : MRet M := fun A a draws => (Ok a, draws).
#[global] Instance M_bind : MBind M := fun A B f m draws =>
  match m draws with
  | (Ok a, draws') => f a draws'
  | (Raise e, draws') => (Raise e, draws')
  end.

Definition lift {A} (r : Res A) : M A := fun draws => (r, draws).
Definition raise {A} (e : PyExc) : M A := lift (Raise e).

Definition uuid4 (uuid4_hex : nat → string) : M string :=
  fun draws => (Ok (uuid4_hex draws), S draws).

(** [for x in items: state = body x state], stopping at the first raise. *)
Fixpoint for_each {A S} (items : list A) (body : A → S → M S) (state : S) : M S :=
  match items with
  | [] => mret state
  | x :: rest => state ← body x state; for_each rest body state
  end.

(** ** blob.py *)

Module Blob.
Section Blob.

(** [datum.py] and [jsonmixin.py] are not among the sources: a [Datum], its
    JSON form and the two conversions between them are parameters. *)
Variable Datum : Type.
Variable DatumJson : Type.
Variable Datum_json : Datum → DatumJson.
Variable Datum_from_json : DatumJson → Datum.
Variable uuid4_hex : nat → string.

(** The values a caller can pass as a name, a key or an item. *)
Inductive value :=
| VNone
| VBool (b : bool)
| VInt (z : Z)
| VStr (s : string)
| VDatum (d : Datum).

Definition is_basestring (v : value) : bool :=
  match v with VStr _ => true | _ => false end.

Definition is_Datum (v : value) : bool :=
  match v with VDatum _ => true | _ => false end.

Record t := mk {
  _id : string;
  _name : string;
  _datums : gmap string Datum
}.

(** The Blob JSON object, [{identifier, name, data}]. *)
Record json_record := mk_json {
  j_identifier : string;
  j_name : string;
  j_data : gmap string DatumJson
}.

Definition name (self : t) : string := _name self.
Definition identifier (self : t) : string := _id self.

(** A method that assigns to [self] returns its result and the new [self];
    when it raises, [self] is as the raise left it. *)
Definition __setitem__ (self : t) (key value : value) : Res unit * t :=
  match key with
  | VStr k =>
      match value with
      | VDatum d =>
          (Ok (), mk (_id self) (_name self) (<[k := d]> (_datums self)))
      | _ => (Raise (Exc TypeError NotADatum), self)
      end
  | _ => (Raise (Exc KeyError KeyNotString), self)
  end.

Definition __getitem__ (self : t) (key : string) : Res Datum :=
  match _datums self !! key with
  | Some d => Ok d
  | None => Raise (Exc KeyError MissingKey)
  end.

Definition __delitem__ (self : t) (key : string) : Res unit * t :=
  match _datums self !! key with
  | Some _ => (Ok (), mk (_id self) (_name self) (delete key (_datums self)))
  | None => (Raise (Exc KeyError MissingKey), self)
  end.

Definition __len__ (self : t) : nat := size (_datums self).

Definition __contains__ (self : t) (key : string) : bool :=
  bool_decide (is_Some (_datums self !! key)).

Definition __eq__ (self other : t) : bool :=
  String.eqb (identifier other) (identifier self).

Definition __hash__ (hash : string → Z) (self : t) : Z := hash (identifier self).

(** [self[key] = datum] inside a constructor: a raise ends the
    construction. *)
Definition assign (self : Res t) (key : string) (datum : value) : Res t :=
  self ← self;
  match __setitem__ self (VStr key) datum with
  | (Ok _, self) => Ok self
  | (Raise e, _) => Raise e
  end.

(** [for key, datum in datums.items(): self[key] = datum]. *)
Definition set_items (self : t) (datums : gmap string value) : Res t :=
  map_fold (fun key datum self => assign self key datum) (Ok self) datums.

Definition __init__ (name : value) (datums : gmap string value) : M t :=
  _id ← uuid4 uuid4_hex;
  match name with
  | VStr _name => lift (set_items (mk _id _name ∅) datums)
  | _ => raise (Exc TypeError NameNotString)
  end.

(** The call [cls(name, **datums)]: [self] and [name] are bound
    positionally, the entries of [datums] are keyword arguments. *)
Definition call (name : value) (datums : gmap string value) : M t :=
  _ ← lift (bind_arguments ["self"; "name"] ["self"; "name"] 2 true
              (map_to_list datums).*1);
  __init__ name datums.

Definition from_json (json_data : json_record) : M t :=
  let datums := Datum_from_json <$> j_data json_data in
  instance ← call (VStr (j_name json_data)) (VDatum <$> datums);
  mret (mk (j_identifier json_data) (_name instance) (_datums instance)).

(** Modelled from the spec: [JsonSerializationMixin.jsonify_dict]
    (jsonmixin.py) is not among the sources; the specification gives the
    serialization as [{identifier, name, data: {key: Datum-json}}]. *)
Definition json (self : t) : json_record :=
  mk_json (identifier self) (name self) (Datum_json <$> _datums self).

End Blob.

Arguments VNone {Datum}.
Arguments VBool {Datum} b.
Arguments VInt {Datum} z.
Arguments VStr {Datum} s.
Arguments VDatum {Datum} d.
Arguments mk {Datum} _ _ _.
Arguments _id {Datum} _.
Arguments _name {Datum} _.
Arguments _datums {Datum} _.
Arguments mk_json {DatumJson} _ _ _.
Arguments j_identifier {DatumJson} _.
Arguments j_name {DatumJson} _.
Arguments j_data {DatumJson} _.
Arguments name {Datum} self.
Arguments identifier {Datum} self.
Arguments is_basestring {Datum} v.
Arguments is_Datum {Datum} v.
Arguments __setitem__ {Datum} self key value.
Arguments __getitem__ {Datum} self key.
Arguments __delitem__ {Datum} self key.
Arguments __len__ {Datum} self.
Arguments __contains__ {Datum} self key.
Arguments __eq__ {Datum} self other.
Arguments __hash__ {Datum} hash self.
Arguments assign {Datum} self key datum.
Arguments set_items {Datum} self datums.
Arguments __init__ {Datum} uuid4_hex name datums.
Arguments call {Datum} uuid4_hex name datums.
Arguments from_json {Datum DatumJson} Datum_from_json uuid4_hex json_data.
Arguments json {Datum DatumJson} Datum_json self.

End Blob.

(** ** metric.py *)

Module Metric.
Section Metric.

(** [astropy.units] is outside the sources: the units, [u.Unit(text)]
    ([None] when it raises), a quantity's unit and [is_equivalent] are
    parameters. *)
Variable Unit : Type.
Variable Quantity : Type.
Variable Unit_of_string : string → option Unit.
Variable quantity_unit : Quantity → Unit.
Variable is_equivalent : Unit → Unit → bool.

Record t := mk {
  _name : Name.t;
  description : string;
  _unit : Unit;
  tags : list string;
  reference_doc : option string;
  reference_url : option string;
  reference_page : option Z
}.

(** The [reference] object of a definition, [{doc, page, url}]. *)
Record reference_record := mk_reference {
  ref_doc : option string;
  ref_page : option Z;
  ref_url : option string
}.

(** A parsed YAML or JSON metric definition; a field that is absent is
    [None]. *)
Record doc := mk_doc {
  doc_name : option string;
  doc_description : option string;
  doc_unit : option string;
  doc_tags : option (list string);
  doc_reference : option reference_record
}.

Definition name (self : t) : Name.t := _name self.
Definition unit (self : t) : Unit := _unit self.

(** [u.Unit(unit)] for a [unit] read from a document. *)
Definition make_unit (unit : option string) : Res Unit :=
  match unit with
  | Some text =>
      match Unit_of_string text with
      | Some u => Ok u
      | None => Raise (Exc ValueError InvalidUnit)
      end
  | None => Raise (Exc TypeError InvalidUnit)
  end.

(** The [name] setter stores [Name(metric=value)]. *)
Definition __init__ (name : Name.arg) (description : string)
    (unit : option string) (tags : option (list string))
    (reference_doc reference_url : option string)
    (reference_page : option Z) : Res t :=
  _name ← Name.__init__ Name.ANone name Name.ANone;
  _unit ← make_unit unit;
  Ok (mk _name description _unit (default [] tags)
        reference_doc reference_url reference_page).

Definition deserialize (name : Name.arg) (description unit : option string)
    (tags : option (list string)) (reference : option reference_record)
    : Res t :=
  match description with
  | None => Raise (Exc AttributeError (NoneHasNoAttribute "rstrip"))
  | Some text =>
      let description := rstrip_newline text in
      match reference with
      | Some r =>
          __init__ name description unit None (ref_doc r) (ref_url r) (ref_page r)
      | None => __init__ name description unit None None None None
      end
  end.

Definition name_arg (name : option string) : Name.arg :=
  match name with
  | Some text => Name.AStr text
  | None => Name.ANone
  end.

Definition from_json (json_data : doc) : Res t :=
  deserialize (name_arg (doc_name json_data)) (doc_description json_data)
    (doc_unit json_data) (doc_tags json_data) (doc_reference json_data).

Definition check_unit (self : t) (quantity : Quantity) : bool :=
  if negb (is_equivalent (quantity_unit quantity) (unit self)) then false
  else true.

(** The truth value of an attribute that is [None] or a [str], and of one
    that is [None] or an [int]. *)
Definition truthy_str (a : option string) : bool :=
  match a with
  | Some text => negb (String.eqb text "")
  | None => false
  end.

Definition truthy_int (a : option Z) : bool :=
  match a with
  | Some n => negb (Z.eqb n 0)
  | None => false
  end.

(** The [reference] property; [pretty] writes an integer in decimal, as
    the format [{page:d}] does. *)
Definition reference (self : t) : string :=
  let ref_str := "" in
  let ref_str :=
    if truthy_str (reference_doc self) && truthy_int (reference_page self)
    then py_format (reference_doc self) +:+ ", p. "
           +:+ pretty (default 0%Z (reference_page self))
    else if truthy_str (reference_doc self) then py_format (reference_doc self)
    else ref_str in
  if truthy_str (reference_url self) && truthy_str (reference_doc self)
  then ref_str +:+ ", " +:+ py_format (reference_url self)
  else if truthy_str (reference_url self) then py_format (reference_url self)
  else ref_str.

(** [==] on units is astropy's, a parameter.  [__eq__] compares the unit
    and the description of [self] with themselves. *)
Variable Unit_eq : Unit → Unit → bool.

Definition __eq__ (self other : t) : bool :=
  Name.__eq__ (name self) (name other)
  && Unit_eq (unit self) (unit self)
  && String.eqb (description self) (description self)
  && String.eqb (reference self) (reference other).

End Metric.

Arguments mk {Unit} _ _ _ _ _ _ _.
Arguments _name {Unit} _.
Arguments description {Unit} _.
Arguments _unit {Unit} _.
Arguments tags {Unit} _.
Arguments reference_doc {Unit} _.
Arguments reference_url {Unit} _.
Arguments reference_page {Unit} _.
Arguments name {Unit} self.
Arguments unit {Unit} self.
Arguments make_unit {Unit} Unit_of_string unit.
Arguments __init__ {Unit} Unit_of_string name description unit tags
  reference_doc reference_url reference_page.
Arguments deserialize {Unit} Unit_of_string name description unit tags reference.
Arguments from_json {Unit} Unit_of_string json_data.
Arguments check_unit {Unit Quantity} quantity_unit is_equivalent self quantity.
Arguments reference {Unit} self.
Arguments __eq__ {Unit} Unit_eq self other.

End Metric.

Module MetricSet.
Section MetricSet.

Variable Unit : Type.
Variable Unit_of_string : string → option Unit.

Record t := mk { _metrics : gmap Name.t (Metric.t Unit) }.

(** [self._metrics[metric.name] = metric] for each metric, in order. *)
Definition __init__ (metrics : option (list (Metric.t Unit))) : t :=
  mk (foldl (fun _metrics metric => <[Metric.name metric := metric]> _metrics)
        ∅ (default [] metrics)).

(** [_load_metrics_yaml]: [package_name] is the file's base name without
    its extension, [yaml_doc] the ordered mapping read from the file. *)
Fixpoint _load_metrics_yaml (package_name : string)
    (yaml_doc : list (string * Metric.doc)) : Res (list (Metric.t Unit)) :=
  match yaml_doc with
  | [] => Ok []
  | (metric_name, metric_doc) :: rest =>
      name ← Name.__init__ (Name.AStr package_name) (Name.AStr metric_name)
                Name.ANone;
      metric ← Metric.deserialize Unit_of_string (Name.AName name)
                  (Metric.doc_description metric_doc)
                  (Metric.doc_unit metric_doc)
                  (Metric.doc_tags metric_doc)
                  (Metric.doc_reference metric_doc);
      metrics ← _load_metrics_yaml package_name rest;
      Ok (metric :: metrics)
  end.

Definition load_single_package (package_name : string)
    (yaml_doc : list (string * Metric.doc)) : Res t :=
  metrics ← _load_metrics_yaml package_name yaml_doc;
  Ok (__init__ (Some metrics)).

(** [load_metrics_package], given the definition files found in the
    [metrics] directory. *)
Fixpoint load_all (files : list (string * list (string * Metric.doc)))
    : Res (list (Metric.t Unit)) :=
  match files with
  | [] => Ok []
  | (package_name, yaml_doc) :: rest =>
      new_metrics ← _load_metrics_yaml package_name yaml_doc;
      metrics ← load_all rest;
      Ok (new_metrics ++ metrics)%list
  end.

Definition load_metrics_package
    (files : list (string * list (string * Metric.doc))) : Res t :=
  metrics ← load_all files;
  Ok (__init__ (Some metrics)).

(** A key that is not a [Name] becomes [Name(metric=key)]. *)
Definition as_name (key : Name.arg) : Res Name.t :=
  match key with
  | Name.AName n => Ok n
  | _ => Name.__init__ Name.ANone key Name.ANone
  end.

Definition __getitem__ (self : t) (key : Name.arg) : Res (Metric.t Unit) :=
  key ← as_name key;
  match _metrics self !! key with
  | Some metric => Ok metric
  | None => Raise (Exc KeyError MissingKey)
  end.

Definition __len__ (self : t) : nat := size (_metrics self).

Definition __contains__ (self : t) (key : Name.arg) : Res bool :=
  key ← as_name key;
  Ok (bool_decide (is_Some (_metrics self !! key))).

End MetricSet.

Arguments mk {Unit} _.
Arguments _metrics {Unit} _.
Arguments __init__ {Unit} metrics.
Arguments _load_metrics_yaml {Unit} Unit_of_string package_name yaml_doc.
Arguments load_single_package {Unit} Unit_of_string package_name yaml_doc.
Arguments load_all {Unit} Unit_of_string files.
Arguments load_metrics_package {Unit} Unit_of_string files.
Arguments __getitem__ {Unit} self key.
Arguments __len__ {Unit} self.
Arguments __contains__ {Unit} self key.

End MetricSet.

(** ** measurement.py *)

Module Measurement.
Section Measurement.

(** [QuantityAttributeMixin._rebuild_quantity] (datum.py) is not among the
    sources: the bare number of a JSON record and the function that
    rebuilds a quantity from it and a unit string are parameters, like the
    parameters of [Blob] and [Metric]. *)
Variable Datum : Type.
Variable DatumJson : Type.
Variable Unit : Type.
Variable Quantity : Type.
Variable Number : Type.
Variable Datum_from_json : DatumJson → Datum.
Variable uuid4_hex : nat → string.
Variable Unit_of_string : string → option Unit.
Variable quantity_unit : Quantity → Unit.
Variable is_equivalent : Unit → Unit → bool.
Variable _rebuild_quantity : Number → string → Res Quantity.

(** What [__init__] assigns: [_metric], [value] and [_id]. *)
Record t := mk {
  _metric : Metric.t Unit;
  value : Quantity;
  _id : string
}.

(** The Measurement JSON object. *)
Record json_record := mk_json {
  j_metric : Metric.doc;
  j_identifier : string;
  j_value : Number;
  j_unit : string;
  j_parameters : gmap string DatumJson;
  j_extras : gmap string DatumJson;
  j_blobs : gmap string string;
  j_spec_name : option string;
  j_filter_name : option string
}.

Definition identifier (self : t) : string := _id self.
Definition name (self : t) : Name.t := Metric.name (_metric self).
Definition description (self : t) : string := Metric.description (_metric self).

Definition __init__ (name : Name.arg) (value : Quantity)
    (metric_set : option (MetricSet.t Unit)) : M t :=
  match metric_set with
  | Some metric_set =>
      _metric ← lift (MetricSet.__getitem__ metric_set name);
      if negb (Metric.check_unit quantity_unit is_equivalent _metric value)
      then raise (Exc UnitTypeError NoMessage)
      else
        _id ← uuid4 uuid4_hex;
        mret (mk _metric value _id)
  | None => raise (Exc NotImplementedError CannotAutoload)
  end.

(** [__init__] never assigns [_linked_blobs], and the class has no such
    attribute. *)
Definition blobs (self : t) : Res (gmap string (Blob.t Datum)) :=
  Raise (Exc AttributeError (NoneHasNoAttribute "_linked_blobs")).

(** A value passed by keyword in a call of the class. *)
Inductive kwarg :=
| KName (a : Name.arg)
| KQuantity (q : Quantity)
| KMetric (m : Metric.t Unit)
| KMetricSet (s : MetricSet.t Unit)
| KDatums (d : gmap string Datum)
| KBlobs (b : gmap string (Blob.t Datum)).

Fixpoint keyword (name : string) (keywords : list (string * kwarg)) : option kwarg :=
  match keywords with
  | [] => None
  | (k, v) :: rest => if String.eqb k name then Some v else keyword name rest
  end.

(** A call [cls(k1=v1, ...)] with keyword arguments only: the arguments are
    bound to the parameters [(self, name, value, metric_set=None)] of
    [__init__], then its body runs. *)
Definition call (keywords : list (string * kwarg)) : M t :=
  _ ← lift (bind_arguments ["self"; "name"; "value"; "metric_set"]
              ["self"; "name"; "value"] 1 false keywords.*1);
  match keyword "name" keywords, keyword "value" keywords with
  | Some (KName name), Some (KQuantity value) =>
      match keyword "metric_set" keywords with
      | None | Some (KName Name.ANone) => __init__ name value None
      | Some (KMetricSet metric_set) => __init__ name value (Some metric_set)
      | Some _ => raise (Exc TypeError NoMessage)
      end
  | _, _ => raise (Exc AttributeError NoMessage)
  end.

(** Modelled from the spec: [DeserializedBlob] is imported from blob.py,
    which does not define it; the specification attaches "the resulting
    Blob object" of the matching record, so it is read as
    [Blob.from_json]. *)
Definition DeserializedBlob_from_json (blob_doc : Blob.json_record DatumJson)
    : M (Blob.t Datum) :=
  Blob.from_json Datum_from_json uuid4_hex blob_doc.

(** The body of the inner loop of [from_json]. *)
Definition link_blob (k id_ : string) (blob_doc : Blob.json_record DatumJson)
    (linked_blobs : gmap string (Blob.t Datum)) : M (gmap string (Blob.t Datum)) :=
  if String.eqb (Blob.j_identifier blob_doc) id_ then
    blob ← DeserializedBlob_from_json blob_doc;
    mret (<[k := blob]> linked_blobs)
  else mret linked_blobs.

(** [for k, id_ in json_data['blobs'].items():
       for blob_doc in blobs_json: ...]. *)
Definition link_blobs (blobs : gmap string string)
    (blobs_json : option (list (Blob.json_record DatumJson)))
    : M (gmap string (Blob.t Datum)) :=
  match blobs_json with
  | Some blobs_json =>
      map_fold
        (fun k id_ (linked_blobs : M (gmap string (Blob.t Datum))) =>
           linked_blobs ← linked_blobs;
           for_each blobs_json (link_blob k id_) linked_blobs)
        (mret ∅) blobs
  | None => mret ∅
  end.

Definition from_json (json_data : json_record)
    (blobs_json : option (list (Blob.json_record DatumJson))) : M t :=
  q ← lift (_rebuild_quantity (j_value json_data) (j_unit json_data));
  let parameters := Datum_from_json <$> j_parameters json_data in
  let extras := Datum_from_json <$> j_extras json_data in
  linked_blobs ← link_blobs (j_blobs json_data) blobs_json;
  metric ← lift (Metric.from_json Unit_of_string (j_metric json_data));
  call [("quantity", KQuantity q);
        ("id_", KName (Name.AStr (j_identifier json_data)));
        ("metric", KMetric metric);
        ("parameters", KDatums parameters);
        ("linked_blobs", KBlobs linked_blobs);
        ("extras", KDatums extras)].

End Measurement.

Arguments mk {Unit Quantity} _ _ _.
Arguments _metric {Unit Quantity} _.
Arguments value {Unit Quantity} _.
Arguments _id {Unit Quantity} _.
Arguments mk_json {DatumJson Number} _ _ _ _ _ _ _ _ _.
Arguments j_blobs {DatumJson Number} _.
Arguments identifier {Unit Quantity} self.
Arguments name {Unit Quantity} self.
Arguments __init__ {Unit Quantity} uuid4_hex quantity_unit is_equivalent
  name value metric_set.
Arguments link_blob {Datum DatumJson} Datum_from_json uuid4_hex k id_
  blob_doc linked_blobs.
Arguments link_blobs {Datum DatumJson} Datum_from_json uuid4_hex blobs blobs_json.
Arguments from_json {Datum DatumJson Unit Quantity Number} Datum_from_json
  uuid4_hex Unit_of_string quantity_unit is_equivalent _rebuild_quantity
  json_data blobs_json.

End Measurement.

Module MeasurementSet.
Section MeasurementSet.

(** The [Job] that produced the measurements is kept and never read. *)
Variable Unit : Type.
Variable Quantity : Type.
Variable Job : Type.
Variable uuid4_hex : nat → string.
Variable quantity_unit : Quantity → Unit.
Variable is_equivalent : Unit → Unit → bool.

Record t := mk {
  name : string;
  measurements : gmap string (Measurement.t Unit Quantity);
  job : option Job
}.

(** [self.measurements[m] = Measurement(m, v, metric_set=metric_set)]. *)
Definition measure (metric_set : MetricSet.t Unit) (m : string) (v : Quantity)
    (measurements : M (gmap string (Measurement.t Unit Quantity)))
    : M (gmap string (Measurement.t Unit Quantity)) :=
  measurements ← measurements;
  measurement ← Measurement.__init__ uuid4_hex quantity_unit is_equivalent
                   (Name.AStr m) v (Some metric_set);
  mret (<[m := measurement]> measurements).

Definition __init__ (name : string) (measurements : gmap string Quantity)
    (job : option Job) (metric_set : option (MetricSet.t Unit)) : M t :=
  match metric_set with
  | None => raise (Exc NotImplementedError CannotAutoload)
  | Some metric_set =>
      made ← map_fold (measure metric_set) (mret ∅) measurements;
      mret (mk name made job)
  end.

Definition __getitem__ (self : t) (key : string)
    : Res (Measurement.t Unit Quantity) :=
  match measurements self !! key with
  | Some measurement => Ok measurement
  | None => Raise (Exc KeyError MissingKey)
  end.

Definition __len__ (self : t) : nat := size (measurements self).

End MeasurementSet.

Arguments mk {Unit Quantity Job} _ _ _.
Arguments name {Unit Quantity Job} _.
Arguments measurements {Unit Quantity Job} _.
Arguments job {Unit Quantity Job} _.
Arguments measure {Unit Quantity} uuid4_hex quantity_unit is_equivalent
  metric_set m v measurements.
Arguments __init__ {Unit Quantity Job} uuid4_hex quantity_unit is_equivalent
  name measurements job metric_set.
Arguments __getitem__ {Unit Quantity Job} self key.
Arguments __len__ {Unit Quantity Job} self.

End MeasurementSet.

(** ** The vocabulary of the properties *)

(** The containment test as the specification words it, for comparison
    with [Name.__contains__]: for a metric name [A], the packages have to
    agree only when both [A] and [B] name one. *)
Definition contains_as_specified (A B : Name.t) : bool :=
  if Name.is_package A then
    negb (Name.is_package B) && py_eq (Name.package B) (Name.package A)
  else if Name.is_metric A then
    negb (Name.is_metric B)
    && (if Name.has_package A && Name.has_package B
        then py_eq (Name.package A) (Name.package B) else true)
    && py_eq (Name.metric B) (Name.metric A)
  else false.

(** The components of a name that are set, in order. *)
Definition present_components (n : Name.t) : list string :=
  omap id [Name.package n; Name.metric n; Name.spec n].

(** What the arguments of [Name(...)] supply, two by two. *)

Abbreviation info := (option string * option string * option string)%type.

(** Two values for one component do not conflict. *)
Definition consistent (a b : option string) : bool :=
  match a, b with
  | Some x, Some y => bool_decide (x = y)
  | _, _ => true
  end.

Definition both_set (a b : option string) : bool :=
  match a, b with
  | Some _, Some _ => true
  | _, _ => false
  end.

Definition first_set (a b : option string) : option string :=
  match a with
  | Some _ => a
  | None => b
  end.

(** Two arguments agree on every component both supply. *)
Definition agree (x y : info) : bool :=
  consistent x.1.1 y.1.1 && consistent x.1.2 y.1.2 && consistent x.2 y.2.

(** Two arguments supply a value for the same component. *)
Definition overlap (x y : info) : bool :=
  both_set x.1.1 y.1.1 || both_set x.1.2 y.1.2 || both_set x.2 y.2.

Definition combine_info (x y : info) : info :=
  (first_set x.1.1 y.1.1, first_set x.1.2 y.1.2, first_set x.2 y.2).

(** A [Name] passed as an argument was itself constructed, so has no gap. *)
Definition gap_free_arg (a : Name.arg) : bool :=
  match a with
  | Name.AName n => negb (Name.metric_gap n)
  | _ => true
  end.

(** What each parser can return. *)

Definition info_gap (x : info) : bool :=
  Name.metric_gap (Name.of_triple x).

Section LoadedNames.

Context {Unit : Type}.

(** Each metric read from a file is named by the file's package and its
    own key. *)
Definition named_from (package_name : string)
    (yaml_doc : list (string * Metric.doc)) (metric : Metric.t Unit) : Prop :=
  ∃ metric_name metric_doc,
    (metric_name, metric_doc) ∈ yaml_doc
    ∧ Name.__init__ (Name.AStr package_name) (Name.AStr metric_name) Name.ANone
      = Ok (Metric.name metric).

Definition loaded_from (files : list (string * list (string * Metric.doc)))
    (metric : Metric.t Unit) : Prop :=
  ∃ package_name yaml_doc,
    (package_name, yaml_doc) ∈ files ∧ named_from package_name yaml_doc metric.

End LoadedNames.

Section ReferencedBlobs.

Context {Datum DatumJson : Type}.

(** Some record of the list has the identifier. *)
Definition referenced (blobs_json : list (Blob.json_record DatumJson))
    (id_ : string) : Prop :=
  ∃ blob_doc, blob_doc ∈ blobs_json ∧ Blob.j_identifier blob_doc = id_.

(** Key [k] of the links is as the reference [id_] of the record wants
    it: a blob with that identifier when the list has one, absent when it
    has none. *)
Definition link_resolved (blobs_json : list (Blob.json_record DatumJson))
    (linked_blobs : gmap string (Blob.t Datum)) (k : string)
    (reference : option string) : Prop :=
  match reference with
  | Some id_ =>
      (referenced blobs_json id_
       ∧ ∃ blob, linked_blobs !! k = Some blob ∧ Blob.identifier blob = id_)
      ∨ (¬ referenced blobs_json id_ ∧ linked_blobs !! k = None)
  | None => linked_blobs !! k = None
  end.

End ReferencedBlobs.

(** [Name(...)] with the string [s] as its one argument, for each field,
    and the number of parts the field accepts. *)
Definition single_argument (field : Field) (s : string) : Res Name.t :=
  match field with
  | FPackage => Name.__init__ (Name.AStr s) Name.ANone Name.ANone
  | FMetric => Name.__init__ Name.ANone (Name.AStr s) Name.ANone
  | FSpec => Name.__init__ Name.ANone Name.ANone (Name.AStr s)
  end.

Definition max_parts (field : Field) : nat :=
  match field with
  | FPackage => 3
  | FMetric => 2
  | FSpec => 3
  end.

(** A string without a dot, and names and arguments whose components are
    such strings. *)
Definition dot_free (c : string) : Prop := split_dot c = [c].

Definition dot_free_name (n : Name.t) : Prop :=
  Forall dot_free (present_components n).

Definition dot_free_arg (a : Name.arg) : Prop :=
  match a with
  | Name.AName n => dot_free_name n
  | _ => True
  end.

(** Every component that is set holds no dot. *)
Definition info_dot_free (x : info) : Prop :=
  ∀ c, x.1.1 = Some c ∨ x.1.2 = Some c ∨ x.2 = Some c → dot_free c.

Section Measured.

Context {Unit Quantity : Type}.
Variable uuid4_hex : nat → string.
Variable quantity_unit : Quantity → Unit.
Variable is_equivalent : Unit → Unit → bool.

(** The entries made so far, for the mapping [m] of the measurements
    processed: each is the measurement of its key and value, with the
    identifier drawn at its own position [position k]. *)
Definition measured (metric_set : MetricSet.t Unit) (m : gmap string Quantity)
    (made : gmap string (Measurement.t Unit Quantity)) (draws draws' : nat)
    (position : string → nat) : Prop :=
  draws' = draws + size m
  ∧ (∀ k, m !! k = None → made !! k = None)
  ∧ (∀ k v, m !! k = Some v →
       ∃ metric,
         made !! k = Some (Measurement.mk metric v (uuid4_hex (position k)))
         ∧ MetricSet.__getitem__ metric_set (Name.AStr k) = Ok metric
         ∧ Metric.check_unit quantity_unit is_equivalent metric v = true
         ∧ draws ≤ position k < draws')
  ∧ (∀ k1 k2, k1 ≠ k2 → is_Some (m !! k1) → is_Some (m !! k2) →
       position k1 ≠ position k2).

End Measured.



(** A run of newline characters, and whether a string ends with one. *)
Fixpoint newlines (k : nat) : string :=
  match k with
  | 0 => EmptyString
  | S k => String "010"%char (newlines k)
  end.

Fixpoint ends_with_newline (s : string) : bool :=
  match s with
  | EmptyString => false
  | String c EmptyString => is_newline c
  | String _ rest => ends_with_newline rest
  end.

(** ** Tactics *)

(** Case analysis on which components are set. *)
Ltac name_cases :=
  unfold agree, overlap, combine_info, consistent, both_set, first_set,
    Name.init_new_info, Name._init_new_package_info,
    Name._init_new_metric_info, Name._init_new_spec_info,
    Name.to_triple, Name.of_triple, Name.metric_gap, py_eq;
  simpl;
  repeat (case_bool_decide; simpl).

(** Running a computation of [M]. *)
Ltac run_M :=
  unfold mbind, M_bind, mret, M_ret, raise, lift, uuid4; simpl.

(** * Properties of [naming.py] *)

Section SplitJoin.

Lemma split_dot_not_nil (s : string) : split_dot s ≠ [].
Proof.
  induction s as [|c rest IH]; simpl; [done|].
  destruct (is_dot c); [done|].
  destruct (split_dot rest); done.
Qed.

Lemma is_dot_true (c : ascii) : is_dot c = true → c = "."%char.
Proof. unfold is_dot. intros H. by apply Ascii.eqb_eq in H. Qed.

Lemma join_dot_cons (part : string) (parts : list string) :
  parts ≠ [] → join_dot (part :: parts) = part +:+ "." +:+ join_dot parts.
Proof. destruct parts; done. Qed.

Lemma join_dot_String (c : ascii) (part : string) (parts : list string) :
  join_dot (String c part :: parts) = String c (join_dot (part :: parts)).
Proof. destruct parts; done. Qed.

Lemma join_split_dot (s : string) : join_dot (split_dot s) = s.
Proof.
  induction s as [|c rest IH]; simpl; [done|].
  destruct (is_dot c) eqn:Hc.
  - apply is_dot_true in Hc as ->.
    rewrite join_dot_cons by apply split_dot_not_nil.
    by rewrite IH.
  - pose proof (split_dot_not_nil rest) as Hne.
    destruct (split_dot rest) as [|part parts]; [done|].
    by rewrite join_dot_String, IH.
Qed.

End SplitJoin.

Section SplitParts.

Lemma split_dot_app (a b : string) :
  split_dot (a +:+ "." +:+ b) = (split_dot a ++ split_dot b)%list.
Proof.
  induction a as [|c a IH]; simpl; [done|].
  destruct (is_dot c); [by rewrite IH|].
  rewrite IH. pose proof (split_dot_not_nil a).
  by destruct (split_dot a).
Qed.

Lemma split_dot_part (s part : string) :
  part ∈ split_dot s → split_dot part = [part].
Proof.
  revert part. induction s as [|c s IH]; simpl; intros part Hin.
  - apply list_elem_of_singleton in Hin as ->. done.
  - destruct (is_dot c) eqn:Hc.
    + apply elem_of_cons in Hin as [->|Hin]; [done|by apply IH].
    + pose proof (split_dot_not_nil s).
      destruct (split_dot s) as [|p ps]; [done|].
      apply elem_of_cons in Hin as [->|Hin].
      * simpl. rewrite Hc, (IH p); [done|]. by left.
      * apply IH. by right.
Qed.

End SplitParts.

Example split_dot_3 : split_dot "validate_drp.PA1.design_gri" = ["validate_drp"; "PA1"; "design_gri"].
Proof. reflexivity. Qed.

Example split_dot_empty : split_dot "a..b." = ["a"; ""; "b"; ""].
Proof. reflexivity. Qed.

Example name_ab_b : Name.__init__ (Name.AStr "a.b") (Name.AStr "b") Name.ANone
  = Ok (Name.mk (Some "a") (Some "b") None).
Proof. reflexivity. Qed.

Example name_ab_x : Name.__init__ (Name.AStr "a.b") (Name.AStr "x") Name.ANone
  = Raise (Exc TypeError (Conflicting FMetric "x")).
Proof. reflexivity. Qed.

Example name_gap : Name.__init__ (Name.AStr "a") Name.ANone (Name.AStr "c")
  = Raise (Exc TypeError MissingMetric).
Proof. reflexivity. Qed.

Section NameConstruction.

Import Name.

Lemma check_metric_gap_Ok (self n : t) :
  check_metric_gap self = Ok n → n = self ∧ metric_gap n = false.
Proof.
  unfold check_metric_gap. destruct (metric_gap self) eqn:Hgap; [done|].
  intros [= <-]. done.
Qed.

Lemma init_Ok_inv (package metric spec : arg) (n : t) :
  __init__ package metric spec = Ok n →
  merge_arguments package metric spec = Ok n ∧ metric_gap n = false.
Proof.
  unfold __init__. destruct (merge_arguments package metric spec) as [self|e]; [|done].
  simpl. intros H. apply check_metric_gap_Ok in H as [-> Hgap]. done.
Qed.

Lemma metric_gap_spec (self : t) :
  metric_gap self = true ↔
  has_package self = true ∧ has_spec self = true ∧ has_metric self = false.
Proof.
  destruct self as [[p|] [m|] [s|]]; cbn; intuition congruence.
Qed.

End NameConstruction.

(** C4. Whatever the arguments, when the components they leave have a
    package and a spec but no metric, [Name(...)] raises the
    missing-metric [TypeError]; and no call of [Name(...)] returns a name
    with such a gap. *)
Theorem name_metric_gap_rejected
    (package metric spec : Name.arg) (self : Name.t) :
  Name.merge_arguments package metric spec = Ok self →
  Name.has_package self = true →
  Name.has_spec self = true →
  Name.has_metric self = false →
  Name.__init__ package metric spec = Raise (Exc TypeError MissingMetric)
  ∧ ∀ package' metric' spec' n,
      Name.__init__ package' metric' spec' = Ok n →
      ¬ (Name.has_package n = true ∧ Name.has_spec n = true
         ∧ Name.has_metric n = false).
Proof.
  intros Hmerge Hp Hs Hm. split.
  - unfold Name.__init__. rewrite Hmerge. simpl.
    unfold Name.check_metric_gap.
    assert (Name.metric_gap self = true) as -> by (apply metric_gap_spec; done).
    done.
  - intros package' metric' spec' n Hn Hgap.
    apply init_Ok_inv in Hn as [_ Hn].
    apply metric_gap_spec in Hgap. congruence.
Qed.

Lemma name_metric_gap_rejected_witness :
  Name.__init__ (Name.AStr "a") Name.ANone (Name.AStr "c")
    = Raise (Exc TypeError MissingMetric)
  ∧ ∀ package' metric' spec' n,
      Name.__init__ package' metric' spec' = Ok n →
      ¬ (Name.has_package n = true ∧ Name.has_spec n = true
         ∧ Name.has_metric n = false).
Proof.
  apply (name_metric_gap_rejected (Name.AStr "a") Name.ANone (Name.AStr "c")
           (Name.mk (Some "a") None (Some "c")));
    reflexivity.
Defined.

(** C6. A constructed name with at least one component is of exactly one
    kind: [is_package] holds iff the package is set and the name is neither
    a metric nor a spec name (that is, neither metric nor spec is set),
    [is_metric] iff the metric is set and the spec is not, [is_spec] iff the
    spec is set, with or without a package. *)
Theorem name_classification_exclusive
    (package metric spec : Name.arg) (n : Name.t) :
  Name.__init__ package metric spec = Ok n →
  Name.has_package n || Name.has_metric n || Name.has_spec n = true →
  ((Name.is_package n = true ∧ Name.is_metric n = false ∧ Name.is_spec n = false)
   ∨ (Name.is_package n = false ∧ Name.is_metric n = true ∧ Name.is_spec n = false)
   ∨ (Name.is_package n = false ∧ Name.is_metric n = false ∧ Name.is_spec n = true))
  ∧ Name.is_package n
    = Name.has_package n && negb (Name.is_metric n) && negb (Name.is_spec n)
  ∧ Name.is_package n
    = Name.has_package n && negb (Name.has_metric n) && negb (Name.has_spec n)
  ∧ Name.is_metric n = Name.has_metric n && negb (Name.has_spec n)
  ∧ Name.is_spec n = Name.has_spec n.
Proof.
  intros _ Hany.
  destruct n as [[p|] [m|] [s|]]; cbn in *; try discriminate; intuition congruence.
Qed.

Lemma name_classification_exclusive_witness :
  let n := Name.mk (Some "validate_drp") (Some "PA1") None in
  ((Name.is_package n = true ∧ Name.is_metric n = false ∧ Name.is_spec n = false)
   ∨ (Name.is_package n = false ∧ Name.is_metric n = true ∧ Name.is_spec n = false)
   ∨ (Name.is_package n = false ∧ Name.is_metric n = false ∧ Name.is_spec n = true))
  ∧ Name.is_package n
    = Name.has_package n && negb (Name.is_metric n) && negb (Name.is_spec n)
  ∧ Name.is_package n
    = Name.has_package n && negb (Name.has_metric n) && negb (Name.has_spec n)
  ∧ Name.is_metric n = Name.has_metric n && negb (Name.has_spec n)
  ∧ Name.is_spec n = Name.has_spec n.
Proof.
  apply (name_classification_exclusive
           (Name.AStr "validate_drp") (Name.AStr "PA1") Name.ANone);
    reflexivity.
Defined.

(** C7, as stated, fails: the metric name [m] (no package) does not
    contain the spec name [a.m.s], although [a.m.s] is not a metric name,
    only one side names a package, and the metrics are the same. *)
Lemma name_contains_one_sided_package :
  let A := Name.mk None (Some "m") None in
  let B := Name.mk (Some "a") (Some "m") (Some "s") in
  Name.__init__ Name.ANone (Name.AStr "m") Name.ANone = Ok A
  ∧ Name.__init__ (Name.AStr "a.m.s") Name.ANone Name.ANone = Ok B
  ∧ Name.is_metric A = true
  ∧ Name.is_metric B = false
  ∧ Name.has_package A && Name.has_package B = false
  ∧ Name.metric B = Name.metric A
  ∧ contains_as_specified A B = true
  ∧ Name.__contains__ A B = false.
Proof. cbv zeta. repeat split. Qed.

(** C7, amended. [B in A] holds exactly when [A] is a package name, [B] is
    not a package name and the packages are equal, or [A] is a metric name,
    [B] is not a metric name, the packages are equal (both absent, or both
    present and the same) and the metrics are equal; a spec name contains
    nothing. *)
Theorem name_contains_characterised (A B : Name.t) :
  (Name.__contains__ A B = true ↔
     (Name.is_package A = true ∧ Name.is_package B = false
      ∧ Name.package B = Name.package A)
     ∨ (Name.is_metric A = true ∧ Name.is_metric B = false
        ∧ Name.package B = Name.package A
        ∧ Name.metric B = Name.metric A))
  ∧ Name.is_spec A && Name.__contains__ A B = false.
Proof.
  destruct A as [[pa|] [ma|] [sa|]], B as [[pb|] [mb|] [sb|]];
    cbn; unfold py_eq; repeat case_bool_decide; cbn;
    intuition congruence.
Qed.

(** C8. A string of one to three dot-separated parts, passed as the
    package, gives a name whose [str()] is that string; and the [str()] of
    any constructed name with a component is the dotted join of exactly the
    components that are set. *)
Theorem name_str_roundtrip (s : string) :
  (1 ≤ List.length (split_dot s) ≤ 3)%nat →
  (∃ n, Name.__init__ (Name.AStr s) Name.ANone Name.ANone = Ok n
        ∧ Name.__str__ n = s)
  ∧ ∀ package metric spec n,
      Name.__init__ package metric spec = Ok n →
      present_components n ≠ [] →
      Name.__str__ n = join_dot (present_components n).
Proof.
  intros Hlen. split.
  - pose proof (join_split_dot s) as Hjoin.
    unfold Name.__init__, Name.merge_arguments, Name.init_package,
      Name.package_info, Name._parse_fqn_string.
    destruct (split_dot s) as [|p [|m [|sp [|? ?]]]]; simpl in Hlen; try lia;
      simpl in Hjoin; subst s; eexists; (split; [reflexivity|]); reflexivity.
  - intros package metric spec n Hn Hne.
    apply init_Ok_inv in Hn as [_ Hgap].
    destruct n as [[p|] [m|] [sp|]]; cbn in *; done.
Qed.

Lemma name_str_roundtrip_witness :
  (∃ n, Name.__init__ (Name.AStr "validate_drp.PA1") Name.ANone Name.ANone = Ok n
        ∧ Name.__str__ n = "validate_drp.PA1")
  ∧ ∀ package metric spec n,
      Name.__init__ package metric spec = Ok n →
      present_components n ≠ [] →
      Name.__str__ n = join_dot (present_components n).
Proof.
  apply (name_str_roundtrip "validate_drp.PA1"). simpl. lia.
Defined.

Section NameMerge.

Import Name.

Lemma init_new_info_agree (self : t) (x : info) :
  agree (to_triple self) x = true →
  init_new_info self x = Ok (of_triple (combine_info (to_triple self) x)).
Proof.
  destruct self as [[p|] [m|] [s|]], x as [[[p'|] [m'|]] [s'|]];
    name_cases; congruence.
Qed.

Lemma init_new_info_conflict (self : t) (x : info) :
  agree (to_triple self) x = false →
  ∃ field value,
    init_new_info self x = Raise (Exc TypeError (Conflicting field value)).
Proof.
  destruct self as [[p|] [m|] [s|]], x as [[[p'|] [m'|]] [s'|]];
    name_cases; try congruence; eauto.
Qed.

Lemma init_package_info (package : arg) (ip : info) :
  package_info package = Ok ip → init_package package = Ok (of_triple ip).
Proof.
  destruct package as [|s|n]; unfold init_package.
  - by intros [= <-].
  - intros ->. by destruct ip as [[? ?] ?].
  - intros ->. by destruct ip as [[? ?] ?].
Qed.

Lemma init_metric_info (self : t) (metric : arg) (im : info) :
  metric_info metric = Ok im → init_metric self metric = init_new_info self im.
Proof.
  destruct metric as [|s|n]; unfold init_metric; [|by intros ->..].
  intros [= <-]. by destruct self.
Qed.

Lemma init_spec_info (self : t) (spec : arg) (isp : info) :
  spec_info spec = Ok isp → init_spec self spec = init_new_info self isp.
Proof.
  destruct spec as [|s|n]; unfold init_spec; [|by intros ->..].
  intros [= <-]. by destruct self.
Qed.

Lemma agree_combine_info (x y z : info) :
  agree x y = true →
  agree (combine_info x y) z = agree x z && agree y z.
Proof.
  destruct x as [[[?|] [?|]] [?|]], y as [[[?|] [?|]] [?|]],
    z as [[[?|] [?|]] [?|]];
    name_cases; congruence.
Qed.

Lemma to_of_triple (x : info) : to_triple (of_triple x) = x.
Proof. by destruct x as [[? ?] ?]. Qed.

Lemma package_info_shape (package : arg) (ip : info) :
  package_info package = Ok ip → gap_free_arg package = true →
  info_gap ip = false.
Proof.
  destruct package as [|s|n]; simpl.
  - by intros [= <-].
  - unfold _parse_fqn_string.
    destruct (split_dot s) as [|? [|? [|? [|? ?]]]]; simpl; try done;
      by intros [= <-].
  - intros [= <-] Hgap. destruct n as [? ? ?]. unfold info_gap. simpl.
    by apply negb_true_iff in Hgap.
Qed.

Lemma metric_info_shape (metric : arg) (im : info) :
  metric_info metric = Ok im → gap_free_arg metric = true →
  info_gap im = false ∧ (im = (None, None, None) ∨ is_Some im.1.2).
Proof.
  destruct metric as [|s|n]; simpl.
  - intros [= <-]. auto.
  - unfold _parse_metric_name_string.
    destruct (split_dot s) as [|? [|? [|? ?]]]; simpl; try done;
      intros [= <-]; eauto.
  - destruct n as [p [m|] sp]; cbn; [|done].
    intros [= <-] Hgap. split; [|eauto].
    by destruct p, sp.
Qed.

Lemma spec_info_shape (spec : arg) (isp : info) :
  spec_info spec = Ok isp → gap_free_arg spec = true →
  info_gap isp = false ∧ (isp = (None, None, None) ∨ is_Some isp.2).
Proof.
  destruct spec as [|s|n]; simpl.
  - intros [= <-]. auto.
  - unfold _parse_spec_name_string.
    destruct (split_dot s) as [|? [|? [|? [|? ?]]]]; simpl; try done;
      intros [= <-]; eauto.
  - destruct n as [p m [sp|]]; cbn; [|done].
    intros [= <-] Hgap. apply negb_true_iff in Hgap. split; [|eauto].
    by destruct p, m.
Qed.

Lemma overlap_closes_gap (x y z : info) :
  info_gap x = false →
  info_gap y = false → y = (None, None, None) ∨ is_Some y.1.2 →
  info_gap z = false → z = (None, None, None) ∨ is_Some z.2 →
  overlap x y || overlap x z || overlap y z = true →
  metric_gap (of_triple (combine_info (combine_info x y) z)) = false.
Proof.
  destruct x as [[[?|] [?|]] [?|]], y as [[[?|] [?|]] [?|]],
    z as [[[?|] [?|]] [?|]];
    unfold info_gap; name_cases; try done;
    intros _ _ [?|[? ?]] _ [?|[? ?]] ?; done.
Qed.

End NameMerge.

(** C5. When the arguments that are given all parse, and [ip], [im] and
    [isp] are what the package, metric and spec arguments supply:
    if every two of them agree on each component both supply, the merge
    yields the union of the supplied values, and construction succeeds
    with it whenever two arguments do supply a common component (the
    arguments that are [Name]s being constructed ones); if some two of them
    disagree, construction raises the conflict [TypeError]. *)
Theorem name_merge_consistency
    (package metric spec : Name.arg) (ip im isp : info) :
  Name.package_info package = Ok ip →
  Name.metric_info metric = Ok im →
  Name.spec_info spec = Ok isp →
  (agree ip im && agree ip isp && agree im isp = true →
     Name.merge_arguments package metric spec
       = Ok (Name.of_triple (combine_info (combine_info ip im) isp))
     ∧ (overlap ip im || overlap ip isp || overlap im isp = true →
        gap_free_arg package && gap_free_arg metric && gap_free_arg spec = true →
        Name.__init__ package metric spec
          = Ok (Name.of_triple (combine_info (combine_info ip im) isp))))
  ∧ (agree ip im && agree ip isp && agree im isp = false →
     ∃ field value,
       Name.__init__ package metric spec
         = Raise (Exc TypeError (Conflicting field value))).
Proof.
  intros Hp Hm Hs.
  assert (Name.merge_arguments package metric spec
          = Name.init_new_info (Name.of_triple ip) im
              ≫= λ self, Name.init_new_info self isp) as Hmerge.
  { unfold Name.merge_arguments.
    rewrite (init_package_info _ _ Hp). simpl.
    rewrite (init_metric_info _ _ _ Hm).
    destruct (Name.init_new_info (Name.of_triple ip) im); simpl; [|done].
    apply (init_spec_info _ _ _ Hs). }
  destruct (agree ip im) eqn:Hpm; simpl.
  - rewrite init_new_info_agree in Hmerge by (by rewrite to_of_triple).
    simpl in Hmerge. rewrite to_of_triple in Hmerge.
    pose proof (agree_combine_info ip im isp Hpm) as Hcomb.
    destruct (agree ip isp && agree im isp) eqn:Hrest.
    + split; [|done]. intros _.
      rewrite init_new_info_agree in Hmerge
        by (by rewrite to_of_triple, Hcomb).
      rewrite to_of_triple in Hmerge.
      split; [done|]. intros Hover Hfree.
      apply andb_true_iff in Hfree as [Hfree Hfs].
      apply andb_true_iff in Hfree as [Hfp Hfm].
      destruct (metric_info_shape _ _ Hm Hfm) as [Hgm Hsm].
      destruct (spec_info_shape _ _ Hs Hfs) as [Hgs Hss].
      unfold Name.__init__, Name.check_metric_gap. rewrite Hmerge. simpl.
      rewrite (overlap_closes_gap ip im isp); eauto using package_info_shape.
    + split; [done|]. intros _.
      destruct (init_new_info_conflict
                  (Name.of_triple (combine_info ip im)) isp) as (f & v & Hc).
      { by rewrite to_of_triple, Hcomb. }
      exists f, v. unfold Name.__init__. by rewrite Hmerge, Hc.
  - split; [done|]. intros _.
    destruct (init_new_info_conflict (Name.of_triple ip) im) as (f & v & Hc).
    { by rewrite to_of_triple. }
    exists f, v. unfold Name.__init__. by rewrite Hmerge, Hc.
Qed.

Lemma name_merge_consistency_witness :
  Name.__init__ (Name.AStr "a.b") (Name.AStr "b") Name.ANone
    = Ok (Name.mk (Some "a") (Some "b") None)
  ∧ ∃ field value,
      Name.__init__ (Name.AStr "a.b") (Name.AStr "x") Name.ANone
        = Raise (Exc TypeError (Conflicting field value)).
Proof.
  split.
  - apply (name_merge_consistency
             (Name.AStr "a.b") (Name.AStr "b") Name.ANone
             (Some "a", Some "b", None) (None, Some "b", None)
             (None, None, None));
      reflexivity.
  - apply (name_merge_consistency
             (Name.AStr "a.b") (Name.AStr "x") Name.ANone
             (Some "a", Some "b", None) (None, Some "x", None)
             (None, None, None));
      reflexivity.
Defined.

Section NameCopies.

Import Name.

Lemma init_new_info_keeps_package (self self' : t) (x : info) :
  init_new_info self x = Ok self' →
  has_package self = true → has_package self' = true.
Proof.
  destruct self as [[p|] m s], x as [[[p'|] [m'|]] [s'|]];
    try done; name_cases; intros; simplify_eq; done.
Qed.

Lemma init_metric_keeps_package (self self' : t) (metric : arg) :
  init_metric self metric = Ok self' →
  has_package self = true → has_package self' = true.
Proof.
  destruct metric; unfold init_metric; [by intros [= <-]|..];
    (destruct (metric_info _); simpl; [|done]);
    apply init_new_info_keeps_package.
Qed.

Lemma init_spec_keeps_package (self self' : t) (spec : arg) :
  init_spec self spec = Ok self' →
  has_package self = true → has_package self' = true.
Proof.
  destruct spec; unfold init_spec; [by intros [= <-]|..];
    (destruct (spec_info _); simpl; [|done]);
    apply init_new_info_keeps_package.
Qed.

(** A string given as the package always sets the package. *)
Lemma init_package_string (package_name : string) (metric spec : arg) (key : t) :
  __init__ (AStr package_name) metric spec = Ok key → has_package key = true.
Proof.
  intros H. apply init_Ok_inv in H as [H _]. revert H.
  unfold merge_arguments.
  destruct (init_package (AStr package_name)) as [self0|] eqn:H0; [|done].
  assert (has_package self0 = true) as Hp0.
  { revert H0. unfold init_package, package_info, _parse_fqn_string.
    destruct (split_dot package_name) as [|? [|? [|? [|? ?]]]]; simpl;
      try done; by intros [= <-]. }
  simpl. destruct (init_metric self0 metric) as [self1|] eqn:H1; [|done].
  simpl. intros H2.
  eauto using init_metric_keeps_package, init_spec_keeps_package.
Qed.

(** [Name(metric=n)] for a name [n] is [n]. *)
Lemma init_metric_copy (n n' : t) :
  __init__ ANone (AName n) ANone = Ok n' → n' = n.
Proof.
  intros H. apply init_Ok_inv in H as [H _]. revert H.
  unfold merge_arguments, init_package, init_metric, metric_info, init_spec.
  destruct n as [[p|] [m|] [s|]]; simpl; try done; name_cases;
    by intros [= <-].
Qed.

(** A bare string as the metric gives a name with no package. *)
Lemma init_metric_bare (k : string) (key : t) :
  List.length (split_dot k) = 1 →
  __init__ ANone (AStr k) ANone = Ok key → has_package key = false.
Proof.
  intros Hlen H. apply init_Ok_inv in H as [H _]. revert H.
  unfold merge_arguments, init_package, init_metric, metric_info,
    _parse_metric_name_string, init_spec.
  destruct (split_dot k) as [|? [|? ?]]; simpl in *; try done.
  by intros [= <-].
Qed.

Lemma init_metric_string_parts (k : string) (key : t) :
  __init__ ANone (AStr k) ANone = Ok key →
  (List.length (split_dot k) = 1 ∧ has_package key = false)
  ∨ List.length (split_dot k) = 2.
Proof.
  intros H. apply init_Ok_inv in H as [H _]. revert H.
  unfold merge_arguments, init_package, init_metric, metric_info,
    _parse_metric_name_string, init_spec.
  destruct (split_dot k) as [|? [|? [|? ?]]]; simpl; try done; auto.
  intros [= <-]. auto.
Qed.

(** The components of a name made from two strings hold no dot, so the
    [str()] of a metric name made that way reads back as the name. *)
Lemma init_strings_metric_str (a b : string) (key : t) :
  __init__ (AStr a) (AStr b) ANone = Ok key →
  is_metric key = true →
  __init__ ANone (AStr (__str__ key)) ANone = Ok key.
Proof.
  intros H Hmetric.
  pose proof (init_package_string _ _ _ _ H) as Hpkg.
  apply init_Ok_inv in H as [H _]. revert H.
  unfold merge_arguments, init_package, package_info, _parse_fqn_string,
    init_metric, metric_info, _parse_metric_name_string, init_spec.
  destruct (split_dot a) as [|a1 [|a2 [|a3 [|? ?]]]] eqn:Ha; simpl; try done;
    destruct (split_dot b) as [|b1 [|b2 [|? ?]]] eqn:Hb; simpl; try done;
    name_cases; intros [= <-]; try done; simplify_eq;
    unfold __init__, merge_arguments, init_package, init_metric, metric_info,
      _parse_metric_name_string, init_spec; cbn;
    rewrite split_dot_app;
    repeat match goal with
           | |- context [split_dot ?p] =>
               rewrite (split_dot_part a p) by (rewrite Ha; set_solver)
           | |- context [split_dot ?p] =>
               rewrite (split_dot_part b p) by (rewrite Hb; set_solver)
           end;
    reflexivity.
Qed.

End NameCopies.

(** * Properties of [blob.py] *)

(** C9, as stated, fails: a key that is not a string raises [KeyError],
    which is no [TypeError]. *)
Lemma blob_setitem_int_key_raises_KeyError :
  let b := Blob.mk "0f" "photometry" (∅ : gmap string string) in
  Blob.__setitem__ b (Blob.VInt 1) (Blob.VDatum "mag")
    = (Raise (Exc KeyError KeyNotString), b)
  ∧ is_TypeError (Exc KeyError KeyNotString) = false.
Proof. split; reflexivity. Qed.

(** C9, amended. Item assignment raises a [KeyError] exactly when the key
    is not a string, and a [TypeError] exactly when the key is a string and
    the value is not a [Datum]; when it raises the blob is unchanged; it
    returns only when both checks pass, and then the entry is stored under
    the key and nothing else changes. *)
Theorem blob_setitem_checked {Datum : Type}
    (self self' : Blob.t Datum) (key value : Blob.value Datum) (r : Res unit) :
  Blob.__setitem__ self key value = (r, self') →
  (Blob.is_basestring key = false ↔ ∃ e, r = Raise e ∧ is_KeyError e = true)
  ∧ (Blob.is_basestring key = true ∧ Blob.is_Datum value = false
     ↔ ∃ e, r = Raise e ∧ is_TypeError e = true)
  ∧ (raises r = true → self' = self)
  ∧ (raises r = false
     ↔ Blob.is_basestring key = true ∧ Blob.is_Datum value = true)
  ∧ ∀ k d, key = Blob.VStr k → value = Blob.VDatum d →
      r = Ok ()
      ∧ self' = Blob.mk (Blob._id self) (Blob._name self)
                  (<[k := d]> (Blob._datums self)).
Proof.
  intros Hset.
  destruct key, value; simpl in Hset; injection Hset as <- <-; simpl;
    split_and!; try done;
    try (split; [intros _ | intros _; done]; eexists; split; done);
    try (split; [done|]; intros (e & [= <-] & He); done);
    try (split; [intros [_ _] | intros _; done]; eexists; split; done);
    try (split; [intros [? ?]; done | intros (e & [= <-] & He); done]);
    try (split; [done | intros [? ?]; done]);
    try (intros k' d' [= <-] ?; simplify_eq; done);
    try (intros k' d' ? ?; simplify_eq).
Qed.

Lemma blob_setitem_checked_witness :
  let b := Blob.mk "0f" "photometry" (∅ : gmap string string) in
  let key : Blob.value string := Blob.VStr "m1" in
  let value : Blob.value string := Blob.VDatum "mag" in
  let b' := Blob.mk "0f" "photometry" (<["m1" := "mag"]> ∅) in
  let r := Ok () in
  (Blob.is_basestring key = false ↔ ∃ e, r = Raise e ∧ is_KeyError e = true)
  ∧ (Blob.is_basestring key = true ∧ Blob.is_Datum value = false
     ↔ ∃ e, r = Raise e ∧ is_TypeError e = true)
  ∧ (raises r = true → b' = b)
  ∧ (raises r = false
     ↔ Blob.is_basestring key = true ∧ Blob.is_Datum value = true)
  ∧ ∀ k d, key = Blob.VStr k → value = Blob.VDatum d →
      r = Ok ()
      ∧ b' = Blob.mk (Blob._id b) (Blob._name b)
               (<[k := d]> (Blob._datums b)).
Proof.
  cbv zeta.
  apply (blob_setitem_checked
           (Blob.mk "0f" "photometry" (∅ : gmap string string))
           (Blob.mk "0f" "photometry" (<["m1" := "mag"]> ∅))
           (Blob.VStr "m1") (Blob.VDatum "mag") (Ok ())).
  reflexivity.
Defined.

Section CallBinding.

Lemma bind_keywords_var_kw (params : list string) (bound : nat)
    (keywords : list string) :
  (∀ k, k ∈ keywords → k ∉ take bound params) →
  bind_keywords params bound true keywords = Ok ().
Proof.
  induction keywords as [|k rest IH]; simpl; intros Hfree; [done|].
  unfold bind_keyword.
  rewrite bool_decide_false by (apply Hfree; by left).
  assert (bind_keywords params bound true rest = Ok ()) as ->.
  { apply IH. intros k' Hk'. apply Hfree. by right. }
  by case_bool_decide.
Qed.

Lemma check_required_given (required given : list string) :
  (∀ p, p ∈ required → p ∈ given) → check_required required given = Ok ().
Proof.
  induction required as [|p rest IH]; simpl; intros Hsub; [done|].
  rewrite bool_decide_true by (apply Hsub; by left).
  apply IH. intros q Hq. apply Hsub. by right.
Qed.

Lemma bind_arguments_var_kw (params required : list string) (bound : nat)
    (keywords : list string) :
  (∀ k, k ∈ keywords → k ∉ take bound params) →
  (∀ p, p ∈ required → p ∈ take bound params) →
  bind_arguments params required bound true keywords = Ok ().
Proof.
  intros Hfree Hreq. unfold bind_arguments.
  rewrite bind_keywords_var_kw by done. simpl.
  apply check_required_given. intros p Hp.
  apply elem_of_app. left. by apply Hreq.
Qed.

Lemma bind_keywords_bound (params : list string) (bound : nat) (var_kw : bool)
    (keywords : list string) (k : string) :
  k ∈ keywords → k ∈ take bound params →
  ∃ e, bind_keywords params bound var_kw keywords = Raise e
       ∧ is_TypeError e = true.
Proof.
  induction keywords as [|k' rest IH]; simpl; intros Hin Hbound.
  - by apply elem_of_nil in Hin.
  - unfold bind_keyword at 1. case_bool_decide as Hk'; simpl; [eauto|].
    apply elem_of_cons in Hin as [->|Hin]; [done|].
    destruct (IH Hin Hbound) as (e & -> & He).
    case_bool_decide; simpl; [eauto|]. destruct var_kw; simpl; eauto.
Qed.

End CallBinding.

Section BlobIdentity.

Context {Datum DatumJson : Type}.
Variable Datum_json : Datum → DatumJson.
Variable Datum_from_json : DatumJson → Datum.
Variable uuid4_hex : nat → string.

(** [==] on blobs compares the identifiers and nothing else. *)
Lemma blob_eq_identifier (a b : Blob.t Datum) :
  Blob.__eq__ a b = true ↔ Blob.identifier a = Blob.identifier b.
Proof.
  unfold Blob.__eq__. rewrite String.eqb_eq. split; congruence.
Qed.

Lemma blob_hash_identifier (hash : string → Z) (a b : Blob.t Datum) :
  Blob.identifier a = Blob.identifier b →
  Blob.__hash__ hash a = Blob.__hash__ hash b.
Proof. unfold Blob.__hash__. by intros ->. Qed.

Lemma blob_set_items_datums (_id _name : string) (datums : gmap string Datum) :
  Blob.set_items (Blob.mk _id _name ∅) (Blob.VDatum <$> datums)
  = Ok (Blob.mk _id _name datums).
Proof.
  unfold Blob.set_items. rewrite map_fold_fmap.
  apply (map_fold_weak_ind
           (fun r (m : gmap string Datum) => r = Ok (Blob.mk _id _name m))).
  - done.
  - intros k d m r _ ->. reflexivity.
Qed.

(** A blob made by the constructor takes the next identifier drawn. *)
Lemma blob_init_identifier (name : string) (datums : gmap string Datum)
    (draws : nat) :
  Blob.__init__ uuid4_hex (Blob.VStr name) (Blob.VDatum <$> datums) draws
  = (Ok (Blob.mk (uuid4_hex draws) name datums), S draws).
Proof.
  unfold Blob.__init__. run_M. by rewrite blob_set_items_datums.
Qed.

(** What [from_json] returns carries the identifier and name of the
    record. *)
Lemma blob_from_json_identifier (json_data : Blob.json_record DatumJson)
    (b : Blob.t Datum) (draws draws' : nat) :
  Blob.from_json Datum_from_json uuid4_hex json_data draws = (Ok b, draws') →
  Blob.identifier b = Blob.j_identifier json_data
  ∧ Blob.name b = Blob.j_name json_data
  ∧ Blob._datums b = Datum_from_json <$> Blob.j_data json_data.
Proof.
  unfold Blob.from_json, Blob.call. run_M.
  destruct (bind_arguments _ _ _ _ _); [|done].
  rewrite blob_init_identifier. by intros [= <- <-].
Qed.

(** The round trip of a blob none of whose keys is ["self"] or ["name"]:
    the identifier is the blob's own, not the one drawn, so the result is
    [==] to the blob. *)
Lemma blob_json_round_trip (b : Blob.t Datum) (draws : nat) :
  Blob._datums b !! "self" = None →
  Blob._datums b !! "name" = None →
  ∃ b',
    Blob.from_json Datum_from_json uuid4_hex (Blob.json Datum_json b) draws
      = (Ok b', S draws)
    ∧ Blob.identifier b' = Blob.identifier b
    ∧ Blob.name b' = Blob.name b
    ∧ Blob._datums b' = (Datum_from_json ∘ Datum_json) <$> Blob._datums b
    ∧ Blob.__eq__ b' b = true.
Proof.
  intros Hself Hname.
  unfold Blob.from_json, Blob.call, Blob.json. run_M.
  rewrite bind_arguments_var_kw; [|
    |intros p Hp; exact Hp].
  2:{ intros k Hk Hbound. simpl in Hbound.
      apply list_elem_of_fmap in Hk as ([k' v] & -> & Hk).
      apply elem_of_map_to_list in Hk. simpl in Hbound.
      rewrite !lookup_fmap in Hk.
      apply elem_of_cons in Hbound as [->|Hbound];
        [by rewrite Hself in Hk|].
      apply list_elem_of_singleton in Hbound as ->.
      by rewrite Hname in Hk. }
  rewrite blob_init_identifier. eexists. split; [reflexivity|].
  simpl. split_and!; try done.
  - by rewrite <-map_fmap_compose.
  - by apply blob_eq_identifier.
Qed.

(** X15. Two constructions in one run draw different identifiers as long
    as the random source does not repeat itself, whatever the name and
    data; the blobs are then unequal. *)
Lemma blob_separate_constructions_differ
    (name1 name2 : string) (datums1 datums2 : gmap string Datum)
    (draws1 draws2 : nat) :
  (∀ i j, uuid4_hex i = uuid4_hex j → i = j) →
  draws1 ≠ draws2 →
  ∃ b1 b2,
    Blob.__init__ uuid4_hex (Blob.VStr name1) (Blob.VDatum <$> datums1) draws1
      = (Ok b1, S draws1)
    ∧ Blob.__init__ uuid4_hex (Blob.VStr name2) (Blob.VDatum <$> datums2) draws2
      = (Ok b2, S draws2)
    ∧ Blob.identifier b1 ≠ Blob.identifier b2
    ∧ Blob.__eq__ b1 b2 = false.
Proof.
  intros Hinj Hne. eexists _, _.
  rewrite !blob_init_identifier. split_and!; try done.
  - simpl. intros H. by apply Hinj in H.
  - apply not_true_is_false. rewrite blob_eq_identifier. simpl.
    intros H. by apply Hinj in H.
Qed.

End BlobIdentity.

Section BlobFromJson.

Context {Datum DatumJson : Type}.
Variable Datum_json : Datum → DatumJson.
Variable Datum_from_json : DatumJson → Datum.
Variable uuid4_hex : nat → string.

(** C3 fails on a blob that holds a datum under the key ["name"]: the blob
    [Blob('photometry')] with [b['name'] = d] is built without error, and
    [Blob.from_json(b.json)] raises the [TypeError] of a parameter given
    twice, since the data keys are passed to [__init__] as keywords next to
    the positional [name]. *)
Theorem blob_from_json_name_key_raises (d : Datum) (draws : nat) :
  ∃ b b',
    Blob.__init__ uuid4_hex (Blob.VStr "photometry") ∅ draws = (Ok b, S draws)
    ∧ Blob.__setitem__ b (Blob.VStr "name") (Blob.VDatum d) = (Ok (), b')
    ∧ Blob.from_json Datum_from_json uuid4_hex (Blob.json Datum_json b') (S draws)
      = (Raise (Exc TypeError MultipleValues), S draws).
Proof.
  eexists _, _. split_and!.
  - unfold Blob.__init__, Blob.set_items. run_M.
    rewrite map_fold_empty. done.
  - reflexivity.
  - unfold Blob.from_json, Blob.call, Blob.json. run_M.
    rewrite insert_empty, !map_fmap_singleton, map_to_list_singleton.
    reflexivity.
Qed.

End BlobFromJson.

(** * Properties of [metric.py] *)

Section MetricSetLoading.

Context {Unit : Type}.
Variable Unit_of_string : string → option Unit.

Lemma metric_init_name (name : Name.t) description unit tags doc url page
    (metric : Metric.t Unit) :
  Metric.__init__ Unit_of_string (Name.AName name) description unit tags
    doc url page = Ok metric →
  Metric.name metric = name.
Proof.
  unfold Metric.__init__.
  destruct (Name.__init__ _ _ _) as [n'|] eqn:Hn; [|done].
  apply init_metric_copy in Hn as ->. simpl.
  destruct (Metric.make_unit _ _); [|done]. by intros [= <-].
Qed.

Lemma metric_deserialize_name (name : Name.t) description unit tags reference
    (metric : Metric.t Unit) :
  Metric.deserialize Unit_of_string (Name.AName name) description unit tags
    reference = Ok metric →
  Metric.name metric = name.
Proof.
  unfold Metric.deserialize. destruct description; [|done].
  destruct reference; apply metric_init_name.
Qed.

Lemma load_metrics_yaml_names (package_name : string)
    (yaml_doc : list (string * Metric.doc)) (metrics : list (Metric.t Unit)) :
  MetricSet._load_metrics_yaml Unit_of_string package_name yaml_doc = Ok metrics →
  Forall (named_from package_name yaml_doc) metrics.
Proof.
  revert metrics.
  induction yaml_doc as [|[metric_name metric_doc] rest IH]; simpl; intros metrics.
  - intros [= <-]. constructor.
  - destruct (Name.__init__ _ _ _) as [name|] eqn:Hname; [|done]. simpl.
    destruct (Metric.deserialize _ _ _ _ _ _) as [metric|] eqn:Hmetric; [|done].
    simpl.
    destruct (MetricSet._load_metrics_yaml _ _ rest) as [ms|]; [|done].
    simpl. intros [= <-]. constructor.
    + exists metric_name, metric_doc. split; [by left|].
      by rewrite (metric_deserialize_name _ _ _ _ _ _ Hmetric).
    + specialize (IH ms eq_refl). rewrite Forall_forall in IH |- *.
      intros m Hm. destruct (IH m Hm) as (k & d & Hin & Hk).
      exists k, d. split; [by right|done].
Qed.

Lemma load_all_names (files : list (string * list (string * Metric.doc)))
    (metrics : list (Metric.t Unit)) :
  MetricSet.load_all Unit_of_string files = Ok metrics →
  Forall (loaded_from files) metrics.
Proof.
  revert metrics.
  induction files as [|[package_name yaml_doc] rest IH]; simpl; intros metrics.
  - intros [= <-]. constructor.
  - destruct (MetricSet._load_metrics_yaml _ _ _) as [new|] eqn:Hnew; [|done].
    simpl. destruct (MetricSet.load_all _ rest) as [ms|]; [|done].
    simpl. intros [= <-]. apply Forall_app. split.
    + apply load_metrics_yaml_names in Hnew.
      rewrite Forall_forall in Hnew |- *. intros m Hm.
      exists package_name, yaml_doc. split; [by left|by apply Hnew].
    + specialize (IH ms eq_refl). rewrite Forall_forall in IH |- *.
      intros m Hm. destruct (IH m Hm) as (p & d & Hin & Hd).
      exists p, d. split; [by right|done].
Qed.

Lemma metric_set_init_lookup (metrics : list (Metric.t Unit))
    (start : gmap Name.t (Metric.t Unit)) (key : Name.t) (metric : Metric.t Unit) :
  foldl (fun _metrics metric => <[Metric.name metric := metric]> _metrics)
    start metrics !! key = Some metric →
  (metric ∈ metrics ∧ Metric.name metric = key) ∨ start !! key = Some metric.
Proof.
  revert start. induction metrics as [|m rest IH]; simpl; intros start H.
  - by right.
  - apply IH in H as [[Hin Hname]|H].
    + left. split; [by right|done].
    + destruct (decide (Metric.name m = key)) as [<-|Hne].
      * rewrite lookup_insert_eq in H. injection H as <-.
        left. split; [by left|done].
      * rewrite lookup_insert_ne in H by done. by right.
Qed.

Lemma load_metrics_package_keys
    (files : list (string * list (string * Metric.doc)))
    (metric_set : MetricSet.t Unit) (key : Name.t) (metric : Metric.t Unit) :
  MetricSet.load_metrics_package Unit_of_string files = Ok metric_set →
  MetricSet._metrics metric_set !! key = Some metric →
  Metric.name metric = key ∧ loaded_from files metric.
Proof.
  unfold MetricSet.load_metrics_package.
  destruct (MetricSet.load_all _ _) as [metrics|] eqn:Hall; [|done].
  simpl. intros [= <-]. simpl. intros H.
  apply metric_set_init_lookup in H as [[Hin Hname]|H].
  - split; [done|].
    apply load_all_names in Hall.
    by apply (proj1 (list.Forall_forall _ _) Hall).
  - by rewrite lookup_empty in H.
Qed.

Lemma load_single_package_as_files (package_name : string)
    (yaml_doc : list (string * Metric.doc)) :
  MetricSet.load_single_package Unit_of_string package_name yaml_doc
  = MetricSet.load_metrics_package Unit_of_string [(package_name, yaml_doc)].
Proof.
  unfold MetricSet.load_single_package, MetricSet.load_metrics_package. simpl.
  destruct (MetricSet._load_metrics_yaml _ _ _); simpl; [|done].
  by rewrite app_nil_r.
Qed.

(** C10. In a metric set loaded from definition files, every key is the
    name [Name(package=file-package, metric=record-key)] of its metric and
    has a package.  Hence looking up a string with no dot raises the
    [KeyError]; a string that retrieves a metric has exactly two parts; and
    an entry is retrieved by its own name, and by the dotted string of
    that name when it is a metric name. *)
Theorem metric_set_keys_are_qualified
    (files : list (string * list (string * Metric.doc)))
    (metric_set : MetricSet.t Unit) :
  MetricSet.load_metrics_package Unit_of_string files = Ok metric_set →
  (∀ key metric,
      MetricSet._metrics metric_set !! key = Some metric →
      Name.has_package key = true
      ∧ Metric.name metric = key
      ∧ ∃ package_name yaml_doc metric_name metric_doc,
          (package_name, yaml_doc) ∈ files
          ∧ (metric_name, metric_doc) ∈ yaml_doc
          ∧ Name.__init__ (Name.AStr package_name) (Name.AStr metric_name)
              Name.ANone = Ok key)
  ∧ (∀ k, List.length (split_dot k) = 1 →
       MetricSet.__getitem__ metric_set (Name.AStr k)
         = Raise (Exc KeyError MissingKey))
  ∧ (∀ k metric,
       MetricSet.__getitem__ metric_set (Name.AStr k) = Ok metric →
       List.length (split_dot k) = 2)
  ∧ (∀ key metric,
       MetricSet._metrics metric_set !! key = Some metric →
       MetricSet.__getitem__ metric_set (Name.AName key) = Ok metric
       ∧ (Name.is_metric key = true →
          MetricSet.__getitem__ metric_set (Name.AStr (Name.__str__ key))
            = Ok metric)).
Proof.
  intros Hload.
  assert (∀ key metric,
      MetricSet._metrics metric_set !! key = Some metric →
      Name.has_package key = true
      ∧ Metric.name metric = key
      ∧ ∃ package_name yaml_doc metric_name metric_doc,
          (package_name, yaml_doc) ∈ files
          ∧ (metric_name, metric_doc) ∈ yaml_doc
          ∧ Name.__init__ (Name.AStr package_name) (Name.AStr metric_name)
              Name.ANone = Ok key) as Hkeys.
  { intros key metric Hlook.
    destruct (load_metrics_package_keys _ _ _ _ Hload Hlook)
      as (Hname & p & d & Hin & k & md & Hk & Hinit).
    rewrite Hname in Hinit.
    split_and!; [by eapply init_package_string|done|].
    by exists p, d, k, md. }
  assert (∀ k key,
      Name.__init__ Name.ANone (Name.AStr k) Name.ANone = Ok key →
      Name.has_package key = false →
      MetricSet._metrics metric_set !! key = None) as Hbare.
  { intros k key _ Hnone.
    destruct (MetricSet._metrics metric_set !! key) as [m|] eqn:Hlook; [|done].
    apply Hkeys in Hlook as [Hp _]. congruence. }
  split_and!; [done|..].
  - intros k Hlen. unfold MetricSet.__getitem__, MetricSet.as_name.
    destruct (Name.__init__ Name.ANone (Name.AStr k) Name.ANone)
      as [key|e] eqn:Hkey.
    + simpl. rewrite (Hbare k key Hkey); [done|].
      by eapply init_metric_bare.
    + revert Hkey. unfold Name.__init__, Name.merge_arguments,
        Name.init_package, Name.init_metric, Name.metric_info,
        Name._parse_metric_name_string.
      destruct (split_dot k) as [|? [|? ?]]; simpl in *; done.
  - intros k metric. unfold MetricSet.__getitem__, MetricSet.as_name.
    destruct (Name.__init__ Name.ANone (Name.AStr k) Name.ANone)
      as [key|e] eqn:Hkey; [|done].
    simpl. destruct (init_metric_string_parts _ _ Hkey) as [[_ Hnone]|H2];
      [|done].
    by rewrite (Hbare k key Hkey Hnone).
  - intros key metric Hlook. split.
    + unfold MetricSet.__getitem__. simpl. by rewrite Hlook.
    + intros Hmetric.
      destruct (Hkeys _ _ Hlook) as (_ & _ & p & d & k & md & _ & _ & Hinit).
      unfold MetricSet.__getitem__, MetricSet.as_name.
      rewrite (init_strings_metric_str _ _ _ Hinit Hmetric). simpl.
      by rewrite Hlook.
Qed.

End MetricSetLoading.

Lemma metric_set_keys_are_qualified_witness :
  let doc :=
    Metric.mk_doc None (Some "Photometric repeatability") (Some "mmag")
      None None in
  let files := [("validate_drp", [("PA1", doc)])] in
  let key := Name.mk (Some "validate_drp") (Some "PA1") None in
  let metric :=
    Metric.mk key "Photometric repeatability" "mmag" [] None None None in
  let metric_set := MetricSet.__init__ (Some [metric]) in
  MetricSet.load_metrics_package Some files = Ok metric_set
  ∧ MetricSet.__getitem__ metric_set (Name.AStr "PA1")
    = Raise (Exc KeyError MissingKey)
  ∧ MetricSet.__getitem__ metric_set (Name.AStr "validate_drp.PA1") = Ok metric.
Proof.
  cbv zeta.
  set (key := Name.mk (Some "validate_drp") (Some "PA1") None).
  set (metric := Metric.mk key "Photometric repeatability" "mmag" [] None None None).
  set (files := [("validate_drp",
                  [("PA1", Metric.mk_doc None (Some "Photometric repeatability")
                             (Some "mmag") None None)])]).
  assert (MetricSet.load_metrics_package Some files
          = Ok (MetricSet.__init__ (Some [metric]))) as Hload
    by reflexivity.
  destruct (metric_set_keys_are_qualified Some files _ Hload)
    as (_ & Hbare & _ & Hget).
  split_and!.
  - exact Hload.
  - apply Hbare. reflexivity.
  - assert (MetricSet._metrics (MetricSet.__init__ (Some [metric])) !! key
            = Some metric) as Hlook by (vm_compute; reflexivity).
    exact (proj2 (Hget key metric Hlook) eq_refl).
Defined.

(** * Properties of [measurement.py] *)

Section MeasurementConstruction.

Context {Unit Quantity : Type}.
Variable uuid4_hex : nat → string.
Variable quantity_unit : Quantity → Unit.
Variable is_equivalent : Unit → Unit → bool.

(** C2. When the metric set holds a metric under the name,
    [Measurement(name, value, metric_set=...)] raises [UnitTypeError]
    exactly when [metric.check_unit(value)] is false, that is when the
    value's unit is not equivalent to the metric's; otherwise it returns a
    measurement of that metric whose value is the value passed. *)
Theorem measurement_unit_checked
    (name : Name.arg) (value : Quantity) (metric_set : MetricSet.t Unit)
    (metric : Metric.t Unit) (draws : nat) :
  MetricSet.__getitem__ metric_set name = Ok metric →
  let made :=
    Measurement.__init__ uuid4_hex quantity_unit is_equivalent
      name value (Some metric_set) draws in
  let convertible := Metric.check_unit quantity_unit is_equivalent metric value in
  made = (if convertible
          then (Ok (Measurement.mk metric value (uuid4_hex draws)), S draws)
          else (Raise (Exc UnitTypeError NoMessage), draws))
  ∧ convertible = is_equivalent (quantity_unit value) (Metric.unit metric)
  ∧ ((∃ e draws', made = (Raise e, draws') ∧ exc_class e = UnitTypeError)
     ↔ convertible = false)
  ∧ (convertible = true ↔
     ∃ m draws', made = (Ok m, draws')
                 ∧ Measurement.value m = value
                 ∧ Measurement._metric m = metric).
Proof.
  intros Hget made convertible.
  assert (made = (if convertible
          then (Ok (Measurement.mk metric value (uuid4_hex draws)), S draws)
          else (Raise (Exc UnitTypeError NoMessage), draws))) as Hmade.
  { subst made convertible. unfold Measurement.__init__.
    run_M. rewrite Hget.
    destruct (Metric.check_unit _ _ metric value); reflexivity. }
  split_and!; [done| |rewrite Hmade..].
  - subst convertible. unfold Metric.check_unit.
    by destruct (is_equivalent _ _).
  - destruct convertible; split.
    + intros (e & draws' & [=] & _).
    + done.
    + done.
    + intros _. eexists _, _. done.
  - destruct convertible; split.
    + intros _. eexists _, _. done.
    + done.
    + done.
    + intros (m & draws' & [=] & _).
Qed.

End MeasurementConstruction.

Lemma measurement_unit_checked_witness :
  let PA1 := Name.mk None (Some "PA1") None in
  let metric := Metric.mk PA1 "Photometric repeatability" "mmag" [] None None None in
  let metric_set := MetricSet.__init__ (Some [metric]) in
  let uuid4_hex := fun _ : nat => "6f1e2a" in
  Measurement.__init__ uuid4_hex (snd : Z * string → string) String.eqb
    (Name.AStr "PA1") (5%Z, "mmag") (Some metric_set) 0
  = (Ok (Measurement.mk metric (5%Z, "mmag") "6f1e2a"), 1).
Proof.
  cbv zeta.
  apply (measurement_unit_checked (fun _ : nat => "6f1e2a")
           (snd : Z * string → string) String.eqb
           (Name.AStr "PA1") (5%Z, "mmag")
           (MetricSet.__init__
              (Some [Metric.mk (Name.mk None (Some "PA1") None)
                       "Photometric repeatability" "mmag" [] None None None]))
           (Metric.mk (Name.mk None (Some "PA1") None)
              "Photometric repeatability" "mmag" [] None None None) 0).
  vm_compute. reflexivity.
Defined.

Section BlobLinks.

Context {Datum DatumJson : Type}.
Variable Datum_from_json : DatumJson → Datum.
Variable uuid4_hex : nat → string.

Lemma link_blobs_not_supplied (blobs : gmap string string) (draws : nat) :
  Measurement.link_blobs Datum_from_json uuid4_hex blobs None draws
  = (Ok ∅, draws).
Proof. reflexivity. Qed.

Lemma for_each_cons {A S} (x : A) (rest : list A) (body : A → S → M S)
    (state : S) (draws : nat) :
  for_each (x :: rest) body state draws
  = match body x state draws with
    | (Ok state', draws') => for_each rest body state' draws'
    | (Raise e, draws') => (Raise e, draws')
    end.
Proof. reflexivity. Qed.

Lemma link_blob_step (k id_ : string) (blob_doc : Blob.json_record DatumJson)
    (linked linked' : gmap string (Blob.t Datum)) (draws draws' : nat) :
  Measurement.link_blob Datum_from_json uuid4_hex k id_ blob_doc linked draws
    = (Ok linked', draws') →
  (Blob.j_identifier blob_doc = id_
   ∧ ∃ blob, linked' = <[k := blob]> linked ∧ Blob.identifier blob = id_)
  ∨ (Blob.j_identifier blob_doc ≠ id_ ∧ linked' = linked).
Proof.
  unfold Measurement.link_blob, Measurement.DeserializedBlob_from_json.
  destruct (String.eqb (Blob.j_identifier blob_doc) id_) eqn:Hid.
  - apply String.eqb_eq in Hid. run_M.
    destruct (Blob.from_json Datum_from_json uuid4_hex blob_doc draws)
      as [[blob|e] draws1] eqn:Hb; [|done].
    apply blob_from_json_identifier in Hb as (Hbid & _ & _).
    intros [= <- <-]. left. split; [done|]. exists blob. split; congruence.
  - apply String.eqb_neq in Hid. run_M. intros [= <- <-]. by right.
Qed.

Lemma link_blob_loop (k id_ : string)
    (blobs_json : list (Blob.json_record DatumJson))
    (linked linked' : gmap string (Blob.t Datum)) (draws draws' : nat) :
  for_each blobs_json (Measurement.link_blob Datum_from_json uuid4_hex k id_)
    linked draws = (Ok linked', draws') →
  (∀ k', k' ≠ k → linked' !! k' = linked !! k')
  ∧ ((referenced blobs_json id_
      ∧ ∃ blob, linked' !! k = Some blob ∧ Blob.identifier blob = id_)
     ∨ (¬ referenced blobs_json id_ ∧ linked' = linked)).
Proof.
  revert linked draws.
  induction blobs_json as [|blob_doc rest IH]; intros linked draws.
  - simpl. run_M. intros [= <- <-]. split; [done|]. right. split; [|done].
    intros (doc & Hin & _). by apply elem_of_nil in Hin.
  - rewrite for_each_cons.
    destruct (Measurement.link_blob _ _ k id_ blob_doc linked draws)
      as [[linked1|e] draws1] eqn:Hstep; [|done].
    intros Hrest. apply IH in Hrest as [Hother Hk].
    apply link_blob_step in Hstep as [(Hid & blob & -> & Hblob)|[Hid ->]].
    + split.
      * intros k' Hne. rewrite Hother by done. by rewrite lookup_insert_ne.
      * left. split; [exists blob_doc; split; [by left|done]|].
        destruct Hk as [[_ Hk]|[_ ->]]; [done|].
        exists blob. by rewrite lookup_insert_eq.
    + split; [done|].
      destruct Hk as [[(doc & Hin & Hdoc) Hk]|[Hno ->]].
      * left. split; [|done]. exists doc. split; [by right|done].
      * right. split; [|done]. intros (doc & Hin & Hdoc).
        apply elem_of_cons in Hin as [->|Hin]; [done|].
        apply Hno. by exists doc.
Qed.

(** X25. When the blob list is supplied and the loop returns, every key of
    the record's [blobs] whose identifier some record of the list carries is
    linked to a blob with that identifier, every other key is absent, and
    so is every key the record does not have. *)
Lemma link_blobs_resolved (blobs : gmap string string)
    (blobs_json : list (Blob.json_record DatumJson))
    (linked_blobs : gmap string (Blob.t Datum)) (draws draws' : nat) :
  Measurement.link_blobs Datum_from_json uuid4_hex blobs (Some blobs_json) draws
    = (Ok linked_blobs, draws') →
  ∀ k, link_resolved blobs_json linked_blobs k (blobs !! k).
Proof.
  unfold Measurement.link_blobs. revert linked_blobs draws draws'.
  apply (map_fold_weak_ind
    (fun (r : M (gmap string (Blob.t Datum))) (m : gmap string string) =>
       ∀ linked draws draws',
         r draws = (Ok linked, draws') →
         ∀ k, link_resolved blobs_json linked k (m !! k))).
  - intros linked draws draws'. run_M. intros [= <- <-] k.
    rewrite lookup_empty. simpl. apply lookup_empty.
  - intros i id_ m r Hi IH linked draws draws'. run_M.
    destruct (r draws) as [[linked0|e] draws0] eqn:Hr; [|done].
    intros Hloop k.
    apply link_blob_loop in Hloop as [Hother Hk].
    specialize (IH _ _ _ Hr).
    destruct (decide (k = i)) as [->|Hne].
    + rewrite lookup_insert_eq. simpl.
      destruct Hk as [Hk|[Hno ->]]; [by left|].
      right. split; [done|].
      specialize (IH i). by rewrite Hi in IH.
    + rewrite lookup_insert_ne by done. specialize (IH k).
      unfold link_resolved in *. rewrite Hother by done. exact IH.
Qed.

End BlobLinks.

Section MeasurementFromJson.

Context {Datum DatumJson Unit Quantity Number : Type}.
Variable Datum_from_json : DatumJson → Datum.
Variable uuid4_hex : nat → string.
Variable Unit_of_string : string → option Unit.
Variable quantity_unit : Quantity → Unit.
Variable is_equivalent : Unit → Unit → bool.
Variable _rebuild_quantity : Number → string → Res Quantity.

(** C1 fails on every input: [from_json] ends by calling the class with
    the keywords [quantity], [id_], [metric], [parameters], [linked_blobs]
    and [extras], none of which [__init__(self, name, value,
    metric_set=None)] accepts; no measurement is ever returned, and when
    the steps before the call succeed the raise is the [TypeError] for the
    keyword [quantity]. *)
Theorem measurement_from_json_raises
    (json_data : Measurement.json_record DatumJson Number)
    (blobs_json : option (list (Blob.json_record DatumJson))) (draws : nat) :
  let result :=
    Measurement.from_json Datum_from_json uuid4_hex Unit_of_string
      quantity_unit is_equivalent _rebuild_quantity json_data blobs_json draws in
  (∃ e draws', result = (Raise e, draws'))
  ∧ ∀ q linked_blobs draws' metric,
      _rebuild_quantity (Measurement.j_value _ _ json_data)
        (Measurement.j_unit _ _ json_data) = Ok q →
      Measurement.link_blobs Datum_from_json uuid4_hex
        (Measurement.j_blobs json_data) blobs_json draws
        = (Ok linked_blobs, draws') →
      Metric.from_json Unit_of_string (Measurement.j_metric _ _ json_data)
        = Ok metric →
      result = (Raise (Exc TypeError (UnexpectedKeyword "quantity")), draws').
Proof.
  cbv zeta. unfold Measurement.from_json.
  run_M.
  destruct (_rebuild_quantity _ _) as [q|e] eqn:Hq.
  2:{ split; [eauto|]. intros; simplify_eq. }
  destruct (Measurement.link_blobs _ _ _ _ draws) as [[linked|e] draws1] eqn:Hl.
  2:{ split; [eauto|]. intros; simplify_eq. }
  destruct (Metric.from_json _ _) as [metric|e] eqn:Hm.
  2:{ split; [eauto|]. intros; simplify_eq. }
  split; [eauto|]. intros; simplify_eq. reflexivity.
Qed.

End MeasurementFromJson.

(** The names of the specification's examples. *)

Example name_abc_is_fq :
  Name.__init__ (Name.AStr "a.b.c") Name.ANone Name.ANone
    = Ok (Name.mk (Some "a") (Some "b") (Some "c"))
  ∧ Name.is_fq (Name.mk (Some "a") (Some "b") (Some "c")) = true
  ∧ Name.is_spec (Name.mk (Some "a") (Some "b") (Some "c")) = true
  ∧ Name.is_relative (Name.mk (Some "a") (Some "b") (Some "c")) = false.
Proof. repeat split. Qed.

Example name_spec_bc_is_relative :
  Name.__init__ Name.ANone Name.ANone (Name.AStr "b.c")
    = Ok (Name.mk None (Some "b") (Some "c"))
  ∧ Name.is_relative (Name.mk None (Some "b") (Some "c")) = true
  ∧ Name.is_fq (Name.mk None (Some "b") (Some "c")) = false.
Proof. repeat split. Qed.

Example name_package_contains_metric :
  Name.__contains__ (Name.mk (Some "a") None None)
    (Name.mk (Some "a") (Some "m") None) = true
  ∧ Name.__contains__ (Name.mk (Some "a") None None)
      (Name.mk (Some "a") None None) = false
  ∧ Name.__contains__ (Name.mk None (Some "m") None)
      (Name.mk None (Some "m") (Some "s")) = true.
Proof. repeat split. Qed.

Example name_empty_str :
  Name.__init__ Name.ANone Name.ANone Name.ANone = Ok (Name.mk None None None)
  ∧ Name.__str__ (Name.mk None None None) = "None.None.None".
Proof. repeat split. Qed.

(** * Further properties of [naming.py] *)

Section NameErrors.

Import Name.

Lemma reraised_class {A} (r : Res A) (e : PyExc) :
  (∀ e', r = Raise e' → exc_class e' = ValueError) →
  reraise_as_TypeError r = Raise e → exc_class e = TypeError.
Proof.
  intros Hr. destruct r as [a|[c why]]; simpl; [done|].
  specialize (Hr _ eq_refl). simpl in Hr. subst c. by intros [= <-].
Qed.

Lemma package_info_raises (package : arg) (e : PyExc) :
  package_info package = Raise e → exc_class e = TypeError.
Proof.
  destruct package as [|s|n]; simpl; [done| |done].
  apply reraised_class. intros e'. unfold _parse_fqn_string.
  destruct (split_dot s) as [|? [|? [|? [|? ?]]]]; try done; by intros [= <-].
Qed.

Lemma metric_info_raises (metric : arg) (e : PyExc) :
  metric_info metric = Raise e → exc_class e = TypeError.
Proof.
  destruct metric as [|s|n]; simpl; [done| |].
  - destruct (reraise_as_TypeError _) as [[? ?]|e'] eqn:Hr; simpl; [done|].
    intros [= <-]. revert Hr. apply reraised_class. intros e''.
    unfold _parse_metric_name_string.
    destruct (split_dot s) as [|? [|? [|? ?]]]; try done; by intros [= <-].
  - destruct (has_metric n); simpl; [done|]. by intros [= <-].
Qed.

Lemma spec_info_raises (spec : arg) (e : PyExc) :
  spec_info spec = Raise e → exc_class e = TypeError.
Proof.
  destruct spec as [|s|n]; simpl; [done| |].
  - apply reraised_class. intros e'. unfold _parse_spec_name_string.
    destruct (split_dot s) as [|? [|? [|? [|? ?]]]]; try done; by intros [= <-].
  - destruct (has_spec n); simpl; [done|]. by intros [= <-].
Qed.

Lemma init_new_info_raises (self : t) (x : info) (e : PyExc) :
  init_new_info self x = Raise e → exc_class e = TypeError.
Proof.
  destruct (agree (to_triple self) x) eqn:Hagree.
  - by rewrite init_new_info_agree.
  - destruct (init_new_info_conflict _ _ Hagree) as (f & v & ->).
    by intros [= <-].
Qed.

Lemma merge_arguments_raises (package metric spec : arg) (e : PyExc) :
  merge_arguments package metric spec = Raise e → exc_class e = TypeError.
Proof.
  unfold merge_arguments.
  destruct (init_package package) as [self0|e0] eqn:H0; simpl.
  2:{ intros [= <-]. revert H0. unfold init_package.
      destruct package as [|s|n]; [done|..];
        (destruct (package_info _) as [[[? ?] ?]|e1] eqn:H1; simpl; [done|]);
        intros [= <-]; by eapply package_info_raises. }
  destruct (init_metric self0 metric) as [self1|e1] eqn:H1; simpl.
  2:{ intros [= <-]. revert H1. unfold init_metric.
      destruct metric as [|s|n]; [done|..];
        (destruct (metric_info _) as [x|e2] eqn:H2; simpl;
           [apply init_new_info_raises
           |intros [= <-]; by eapply metric_info_raises]). }
  unfold init_spec.
  destruct spec as [|s|n]; [done|..];
    (destruct (spec_info _) as [x|e2] eqn:H2; simpl;
       [apply init_new_info_raises
       |intros [= <-]; by eapply spec_info_raises]).
Qed.

End NameErrors.

(** X1. Whatever its arguments, a [Name(...)] that fails raises a
    [TypeError]: the [ValueError] of the parsers never leaves [__init__]. *)
Theorem name_init_raises_TypeError
    (package metric spec : Name.arg) (e : PyExc) :
  Name.__init__ package metric spec = Raise e → exc_class e = TypeError.
Proof.
  unfold Name.__init__.
  destruct (Name.merge_arguments package metric spec) as [self|e0] eqn:Hm;
    simpl.
  - unfold Name.check_metric_gap. destruct (Name.metric_gap self); [|done].
    by intros [= <-].
  - intros [= <-]. by eapply merge_arguments_raises.
Qed.

Lemma name_init_raises_TypeError_witness :
  ∃ e, Name.__init__ Name.ANone (Name.AStr "a.b.c") Name.ANone = Raise e
       ∧ exc_class e = TypeError.
Proof.
  eexists. split; [reflexivity|].
  apply (name_init_raises_TypeError Name.ANone (Name.AStr "a.b.c") Name.ANone).
  reflexivity.
Defined.

(** X2. A string passed as the only argument is accepted exactly when
    its number of parts is at most three for the package and the spec
    field and at most two for the metric field; the name then has exactly
    the parts as its components, in order, and its [str()] is the string;
    otherwise the raise is the [TypeError] of the field's parser. *)
Theorem name_single_string (field : Field) (s : string) :
  ((List.length (split_dot s) ≤ max_parts field)%nat
   ↔ ∃ n, single_argument field s = Ok n)
  ∧ (∀ n, single_argument field s = Ok n →
       present_components n = split_dot s ∧ Name.__str__ n = s)
  ∧ ((max_parts field < List.length (split_dot s))%nat →
     single_argument field s = Raise (Exc TypeError (CannotParse field s))).
Proof.
  pose proof (join_split_dot s) as Hjoin.
  pose proof (split_dot_not_nil s) as Hne.
  destruct field; unfold single_argument, Name.__init__, Name.merge_arguments,
    Name.init_package, Name.package_info, Name._parse_fqn_string,
    Name.init_metric, Name.metric_info, Name._parse_metric_name_string,
    Name.init_spec, Name.spec_info, Name._parse_spec_name_string;
    destruct (split_dot s) as [|a [|b [|c [|d l]]]] eqn:Hsplit; try done;
    simpl;
    (split_and!;
     [split;
      [intros H; first [by eexists | lia]
      |intros H; first [lia | by destruct H as [n [=]]]]
     |intros n H;
      first [discriminate
            |injection H as <-; split; [reflexivity | by rewrite <-Hjoin]]
     |intros H; first [lia | reflexivity]]).
Qed.

(** X3. Passing a constructed name back gives the same name: as the
    package always, as the metric when it has a metric and as the spec
    when it has a spec; a name without that information is refused with a
    [TypeError]. *)
Theorem name_copy (package metric spec : Name.arg) (n : Name.t) :
  Name.__init__ package metric spec = Ok n →
  Name.__init__ (Name.AName n) Name.ANone Name.ANone = Ok n
  ∧ Name.__init__ Name.ANone (Name.AName n) Name.ANone
    = (if Name.has_metric n then Ok n
       else Raise (Exc TypeError (NoInformation FMetric)))
  ∧ Name.__init__ Name.ANone Name.ANone (Name.AName n)
    = (if Name.has_spec n then Ok n
       else Raise (Exc TypeError (NoInformation FSpec)))
  ∧ Name.__init__ (Name.AName n) (Name.AName n) (Name.AName n)
    = (if Name.has_metric n && Name.has_spec n then Ok n
       else if Name.has_metric n
       then Raise (Exc TypeError (NoInformation FSpec))
       else Raise (Exc TypeError (NoInformation FMetric))).
Proof.
  intros Hn. apply init_Ok_inv in Hn as [_ Hgap].
  unfold Name.__init__, Name.merge_arguments, Name.init_package,
    Name.package_info, Name.init_metric, Name.metric_info, Name.init_spec,
    Name.spec_info, Name.check_metric_gap.
  destruct n as [[p|] [m|] [s|]]; try done; simpl; name_cases; done.
Qed.

Lemma name_copy_witness :
  let n := Name.mk (Some "validate_drp") (Some "PA1") None in
  Name.__init__ (Name.AName n) Name.ANone Name.ANone = Ok n
  ∧ Name.__init__ Name.ANone (Name.AName n) Name.ANone = Ok n
  ∧ Name.__init__ Name.ANone Name.ANone (Name.AName n)
    = Raise (Exc TypeError (NoInformation FSpec))
  ∧ Name.__init__ (Name.AName n) (Name.AName n) (Name.AName n)
    = Raise (Exc TypeError (NoInformation FSpec)).
Proof.
  cbv zeta.
  apply (name_copy (Name.AStr "validate_drp.PA1") Name.ANone Name.ANone
           (Name.mk (Some "validate_drp") (Some "PA1") None)).
  reflexivity.
Defined.

(** X4. For a package, a metric and a spec without dots, every way of
    spelling the three in the arguments gives the same name. *)
Theorem name_spellings (p m s : string) :
  dot_free p → dot_free m → dot_free s →
  let n := Name.mk (Some p) (Some m) (Some s) in
  Name.__init__ (Name.AStr p) (Name.AStr m) (Name.AStr s) = Ok n
  ∧ Name.__init__ (Name.AStr (p +:+ "." +:+ m +:+ "." +:+ s))
      Name.ANone Name.ANone = Ok n
  ∧ Name.__init__ Name.ANone Name.ANone
      (Name.AStr (p +:+ "." +:+ m +:+ "." +:+ s)) = Ok n
  ∧ Name.__init__ Name.ANone (Name.AStr (p +:+ "." +:+ m)) (Name.AStr s) = Ok n
  ∧ Name.__init__ (Name.AStr p) Name.ANone (Name.AStr (m +:+ "." +:+ s)) = Ok n
  ∧ Name.__init__ (Name.AStr (p +:+ "." +:+ m)) (Name.AStr m)
      (Name.AStr (m +:+ "." +:+ s)) = Ok n.
Proof.
  unfold dot_free. intros Hp Hm Hs. cbv zeta.
  unfold Name.__init__, Name.merge_arguments, Name.init_package,
    Name.package_info, Name._parse_fqn_string,
    Name.init_metric, Name.metric_info, Name._parse_metric_name_string,
    Name.init_spec, Name.spec_info, Name._parse_spec_name_string.
  rewrite !split_dot_app, Hp, Hm, Hs. simpl.
  name_cases; done.
Qed.

Lemma name_spellings_witness :
  let n := Name.mk (Some "validate_drp") (Some "PA1") (Some "design") in
  Name.__init__ (Name.AStr "validate_drp") (Name.AStr "PA1")
    (Name.AStr "design") = Ok n
  ∧ Name.__init__ (Name.AStr "validate_drp.PA1.design")
      Name.ANone Name.ANone = Ok n
  ∧ Name.__init__ Name.ANone Name.ANone
      (Name.AStr "validate_drp.PA1.design") = Ok n
  ∧ Name.__init__ Name.ANone (Name.AStr "validate_drp.PA1")
      (Name.AStr "design") = Ok n
  ∧ Name.__init__ (Name.AStr "validate_drp") Name.ANone
      (Name.AStr "PA1.design") = Ok n
  ∧ Name.__init__ (Name.AStr "validate_drp.PA1") (Name.AStr "PA1")
      (Name.AStr "PA1.design") = Ok n.
Proof.
  cbv zeta.
  apply (name_spellings "validate_drp" "PA1" "design"); reflexivity.
Defined.

(** X5. A constructed name is fully qualified exactly when it has a
    package, and is relative exactly when it has a spec and a metric and no
    package; no name is both. *)
Theorem name_fq_iff_package (package metric spec : Name.arg) (n : Name.t) :
  Name.__init__ package metric spec = Ok n →
  Name.is_fq n = Name.has_package n
  ∧ Name.is_relative n
    = Name.has_spec n && Name.has_metric n && negb (Name.has_package n)
  ∧ Name.is_fq n && Name.is_relative n = false
  ∧ Name.has_relative n = Name.has_spec n && Name.has_metric n.
Proof.
  intros Hn. apply init_Ok_inv in Hn as [_ Hgap].
  destruct n as [[p|] [m|] [s|]]; done.
Qed.

Lemma name_fq_iff_package_witness :
  let n := Name.mk None (Some "PA1") (Some "design") in
  Name.is_fq n = Name.has_package n
  ∧ Name.is_relative n
    = Name.has_spec n && Name.has_metric n && negb (Name.has_package n)
  ∧ Name.is_fq n && Name.is_relative n = false
  ∧ Name.has_relative n = Name.has_spec n && Name.has_metric n.
Proof.
  cbv zeta.
  apply (name_fq_iff_package Name.ANone Name.ANone (Name.AStr "PA1.design")).
  reflexivity.
Defined.

Section NameDotFree.

Import Name.

Lemma dot_free_name_info (n : t) :
  dot_free_name n ↔ info_dot_free (to_triple n).
Proof.
  unfold dot_free_name, info_dot_free, present_components.
  rewrite list.Forall_forall.
  destruct n as [[p|] [m|] [s|]]; simpl; split; intros H c Hc; apply H;
    rewrite ?elem_of_cons, ?elem_of_nil in *;
    intuition (simplify_eq; auto).
Qed.

Lemma parts_dot_free (s : string) (x : info) :
  (∀ c, x.1.1 = Some c ∨ x.1.2 = Some c ∨ x.2 = Some c → c ∈ split_dot s) →
  info_dot_free x.
Proof. intros H c Hc. eapply split_dot_part, H, Hc. Qed.

Lemma package_info_dot_free (package : arg) (x : info) :
  dot_free_arg package → package_info package = Ok x → info_dot_free x.
Proof.
  destruct package as [|s|n]; simpl.
  - intros _ [= <-] c. simpl. intros [?|[?|?]]; done.
  - intros _. unfold _parse_fqn_string.
    destruct (split_dot s) as [|? [|? [|? [|? ?]]]] eqn:Hs; simpl; try done;
      intros [= <-]; apply (parts_dot_free s); rewrite Hs; simpl;
      intros c [?|[?|?]]; simplify_eq;
      repeat first [by left | right].
  - intros Hn [= <-]. by apply dot_free_name_info in Hn.
Qed.

Lemma metric_info_dot_free (metric : arg) (x : info) :
  dot_free_arg metric → metric_info metric = Ok x → info_dot_free x.
Proof.
  destruct metric as [|s|n]; simpl.
  - intros _ [= <-] c. simpl. intros [?|[?|?]]; done.
  - intros _. unfold _parse_metric_name_string.
    destruct (split_dot s) as [|? [|? [|? ?]]] eqn:Hs; simpl; try done;
      intros [= <-]; apply (parts_dot_free s); rewrite Hs; simpl;
      intros c [?|[?|?]]; simplify_eq;
      repeat first [by left | right].
  - intros Hn. destruct (has_metric n); simpl; [|done].
    intros [= <-]. by apply dot_free_name_info in Hn.
Qed.

Lemma spec_info_dot_free (spec : arg) (x : info) :
  dot_free_arg spec → spec_info spec = Ok x → info_dot_free x.
Proof.
  destruct spec as [|s|n]; simpl.
  - intros _ [= <-] c. simpl. intros [?|[?|?]]; done.
  - intros _. unfold _parse_spec_name_string.
    destruct (split_dot s) as [|? [|? [|? [|? ?]]]] eqn:Hs; simpl; try done;
      intros [= <-]; apply (parts_dot_free s); rewrite Hs; simpl;
      intros c [?|[?|?]]; simplify_eq;
      repeat first [by left | right].
  - intros Hn. destruct (has_spec n); simpl; [|done].
    intros [= <-]. by apply dot_free_name_info in Hn.
Qed.

Lemma init_new_info_dot_free (self self' : t) (x : info) :
  info_dot_free (to_triple self) → info_dot_free x →
  init_new_info self x = Ok self' → info_dot_free (to_triple self').
Proof.
  intros Hself Hx.
  destruct (agree (to_triple self) x) eqn:Hagree.
  - rewrite init_new_info_agree by done. intros [= <-].
    rewrite to_of_triple. intros c Hc.
    destruct self as [[p|] [m|] [s|]], x as [[[p'|] [m'|]] [s'|]];
      simpl in *; destruct Hc as [?|[?|?]]; simplify_eq;
      first [apply Hself; simpl; by eauto | apply Hx; simpl; by eauto].
  - destruct (init_new_info_conflict _ _ Hagree) as (f & v & ->). done.
Qed.

Lemma merge_arguments_dot_free (package metric spec : arg) (n : t) :
  dot_free_arg package → dot_free_arg metric → dot_free_arg spec →
  merge_arguments package metric spec = Ok n → dot_free_name n.
Proof.
  intros Hp Hm Hs. unfold merge_arguments.
  destruct (package_info package) as [ip|] eqn:Hip.
  2:{ unfold init_package. rewrite Hip. by destruct package. }
  rewrite (init_package_info _ _ Hip). simpl.
  destruct (metric_info metric) as [im|] eqn:Him.
  2:{ unfold init_metric. rewrite Him. by destruct metric. }
  rewrite (init_metric_info _ _ _ Him).
  destruct (init_new_info (of_triple ip) im) as [self1|] eqn:H1; [|done].
  simpl.
  destruct (spec_info spec) as [isp|] eqn:His.
  2:{ unfold init_spec. rewrite His. by destruct spec. }
  rewrite (init_spec_info _ _ _ His). intros H2.
  apply dot_free_name_info.
  eapply init_new_info_dot_free;
    [|eapply spec_info_dot_free; [exact Hs|exact His]|exact H2].
  eapply init_new_info_dot_free;
    [|eapply metric_info_dot_free; [exact Hm|exact Him]|exact H1].
  rewrite to_of_triple. eapply package_info_dot_free; [exact Hp|exact Hip].
Qed.

End NameDotFree.

(** X6. The components of a name hold no dot when its arguments are
    strings, [None], or names whose components hold none: each component
    is one part of a string that was split, or a component of such a
    name. *)
Theorem name_components_dot_free
    (package metric spec : Name.arg) (n : Name.t) :
  dot_free_arg package → dot_free_arg metric → dot_free_arg spec →
  Name.__init__ package metric spec = Ok n →
  ∀ c, c ∈ present_components n → split_dot c = [c].
Proof.
  intros Hp Hm Hs Hn. apply init_Ok_inv in Hn as [Hn _].
  apply (merge_arguments_dot_free _ _ _ _ Hp Hm Hs) in Hn.
  unfold dot_free_name in Hn. rewrite list.Forall_forall in Hn. exact Hn.
Qed.

Lemma name_components_dot_free_witness :
  ∃ n, Name.__init__ (Name.AStr "validate_drp.PA1") Name.ANone
         (Name.AStr "design") = Ok n
       ∧ present_components n = ["validate_drp"; "PA1"; "design"]
       ∧ split_dot "PA1" = ["PA1"].
Proof.
  eexists. split; [reflexivity|]. split; [reflexivity|].
  apply (name_components_dot_free (Name.AStr "validate_drp.PA1") Name.ANone
           (Name.AStr "design")
           (Name.mk (Some "validate_drp") (Some "PA1") (Some "design")));
    [exact I|exact I|exact I|reflexivity|].
  simpl. set_solver.
Defined.

(** X7. The [fqn] of a fully qualified name built from dot-free
    arguments is its [str()], and reading that string back as the package
    argument gives the name again; [fqn] of a name that is not fully
    qualified raises [AttributeError]. *)
Theorem name_fqn_round_trip (package metric spec : Name.arg) (n : Name.t) :
  dot_free_arg package → dot_free_arg metric → dot_free_arg spec →
  Name.__init__ package metric spec = Ok n →
  (Name.is_fq n = true →
     Name.fqn n = Ok (Name.__str__ n)
     ∧ Name.__init__ (Name.AStr (Name.__str__ n)) Name.ANone Name.ANone = Ok n)
  ∧ (Name.is_fq n = false → Name.fqn n = Raise (Exc AttributeError NoMessage)).
Proof.
  intros Hp Hm Hs Hn. apply init_Ok_inv in Hn as [Hn Hgap].
  apply (merge_arguments_dot_free _ _ _ _ Hp Hm Hs) in Hn.
  unfold dot_free_name in Hn. rewrite list.Forall_forall in Hn.
  unfold Name.fqn. split; intros Hfq; rewrite Hfq; [|done].
  split; [done|].
  unfold dot_free in Hn.
  destruct n as [[p|] [m|] [s|]]; try done;
    unfold Name.__init__, Name.merge_arguments, Name.init_package,
      Name.package_info, Name._parse_fqn_string; cbn;
    rewrite ?split_dot_app, ?(Hn p), ?(Hn m), ?(Hn s)
      by (unfold present_components; simpl; set_solver);
    reflexivity.
Qed.

Lemma name_fqn_round_trip_witness :
  let n := Name.mk (Some "validate_drp") (Some "PA1") (Some "design") in
  Name.fqn n = Ok "validate_drp.PA1.design"
  ∧ Name.__init__ (Name.AStr "validate_drp.PA1.design") Name.ANone Name.ANone
    = Ok n.
Proof.
  cbv zeta.
  apply (name_fqn_round_trip (Name.AStr "validate_drp") (Name.AStr "PA1")
           (Name.AStr "design")
           (Name.mk (Some "validate_drp") (Some "PA1") (Some "design")));
    try exact I; reflexivity.
Defined.

(** X8. [relative_name] of a name with a metric and a spec, built from
    dot-free arguments, is ["metric.spec"] whether or not the name has a
    package; reading it back as the spec gives the name without its
    package, and with the package passed beside it the name itself;
    without a metric or without a spec it raises [AttributeError]. *)
Theorem name_relative_round_trip
    (package metric spec : Name.arg) (n : Name.t) :
  dot_free_arg package → dot_free_arg metric → dot_free_arg spec →
  Name.__init__ package metric spec = Ok n →
  (Name.has_relative n = true →
     ∃ text,
       Name.relative_name n = Ok text
       ∧ Name.__init__ Name.ANone Name.ANone (Name.AStr text)
         = Ok (Name.mk None (Name.metric n) (Name.spec n))
       ∧ Name.__init__
           (match Name.package n with
            | Some p => Name.AStr p
            | None => Name.ANone
            end) Name.ANone (Name.AStr text) = Ok n)
  ∧ (Name.has_relative n = false →
     Name.relative_name n = Raise (Exc AttributeError NoMessage)).
Proof.
  intros Hp Hm Hs Hn. apply init_Ok_inv in Hn as [Hn Hgap].
  apply (merge_arguments_dot_free _ _ _ _ Hp Hm Hs) in Hn.
  unfold dot_free_name in Hn. rewrite list.Forall_forall in Hn.
  unfold Name.relative_name. split; intros Hrel; rewrite Hrel; [|done].
  eexists. split; [reflexivity|].
  unfold dot_free in Hn.
  destruct n as [[p|] [m|] [s|]]; try done;
    unfold Name.__init__, Name.merge_arguments, Name.init_package,
      Name.package_info, Name._parse_fqn_string, Name.init_metric,
      Name.init_spec, Name.spec_info, Name._parse_spec_name_string; cbn;
    rewrite ?split_dot_app, ?(Hn p), ?(Hn m), ?(Hn s)
      by (unfold present_components; simpl; set_solver);
    cbn; name_cases; done.
Qed.

Lemma name_relative_round_trip_witness :
  let n := Name.mk (Some "validate_drp") (Some "PA1") (Some "design") in
  ∃ text,
    Name.relative_name n = Ok text
    ∧ Name.__init__ Name.ANone Name.ANone (Name.AStr text)
      = Ok (Name.mk None (Some "PA1") (Some "design"))
    ∧ Name.__init__ (Name.AStr "validate_drp") Name.ANone (Name.AStr text)
      = Ok n.
Proof.
  cbv zeta.
  apply (name_relative_round_trip (Name.AStr "validate_drp.PA1.design")
           Name.ANone Name.ANone
           (Name.mk (Some "validate_drp") (Some "PA1") (Some "design")));
    try exact I; reflexivity.
Defined.

(** X9. Containment is a strict order with chains of length at most
    three: no name contains itself, and when [A] contains [B] and [B]
    contains [C], then [A] is a package name, [B] a metric name, [C] a spec
    name, [A] contains [C], and [B] does not contain [A]. *)
Theorem name_contains_strict_order (A B C : Name.t) :
  Name.__contains__ A B = true →
  Name.__contains__ B C = true →
  Name.__contains__ A C = true
  ∧ Name.__contains__ B A = false
  ∧ Name.is_package A = true ∧ Name.is_metric B = true
  ∧ Name.is_spec C = true
  ∧ ∀ n, Name.__contains__ n n = false.
Proof.
  intros HAB HBC. split_and!.
  6:{ intros [[p|] [m|] [s|]]; reflexivity. }
  all: revert HAB HBC;
    destruct A as [[pa|] [ma|] [sa|]], B as [[pb|] [mb|] [sb|]],
      C as [[pc|] [mc|] [sc|]];
    cbn; unfold py_eq; repeat case_bool_decide; cbn; congruence.
Qed.

Lemma name_contains_strict_order_witness :
  let A := Name.mk (Some "validate_drp") None None in
  let B := Name.mk (Some "validate_drp") (Some "PA1") None in
  let C := Name.mk (Some "validate_drp") (Some "PA1") (Some "design") in
  Name.__contains__ A C = true
  ∧ Name.__contains__ B A = false
  ∧ Name.is_package A = true ∧ Name.is_metric B = true
  ∧ Name.is_spec C = true
  ∧ ∀ n, Name.__contains__ n n = false.
Proof.
  cbv zeta.
  apply (name_contains_strict_order
           (Name.mk (Some "validate_drp") None None)
           (Name.mk (Some "validate_drp") (Some "PA1") None)
           (Name.mk (Some "validate_drp") (Some "PA1") (Some "design")));
    reflexivity.
Defined.

(** * Further properties of [blob.py] *)

Section BlobCalls.

Lemma bind_keywords_var_kw_bound (params : list string) (bound : nat)
    (keywords : list string) (k : string) :
  k ∈ keywords → k ∈ take bound params →
  bind_keywords params bound true keywords = Raise (Exc TypeError MultipleValues).
Proof.
  induction keywords as [|k' rest IH]; simpl; intros Hin Hbound.
  - by apply elem_of_nil in Hin.
  - unfold bind_keyword at 1. case_bool_decide as Hk'; simpl; [done|].
    apply elem_of_cons in Hin as [->|Hin]; [done|].
    rewrite (IH Hin Hbound). by case_bool_decide.
Qed.

End BlobCalls.

Section BlobMapping.

Context {Datum DatumJson : Type}.
Variable Datum_from_json : DatumJson → Datum.
Variable uuid4_hex : nat → string.



(** X10. [Blob.from_json] returns exactly when the record's data has no
    key ["self"] or ["name"]: the blob then has the identifier and name of
    the record, not the identifier drawn, and the deserialized data; with
    such a key the call raises a [TypeError] and draws nothing. *)
Theorem blob_from_json_cases (json_data : Blob.json_record DatumJson)
    (draws : nat) :
  Blob.from_json Datum_from_json uuid4_hex json_data draws
  = if bool_decide (is_Some (Blob.j_data json_data !! "self"))
       || bool_decide (is_Some (Blob.j_data json_data !! "name"))
    then (Raise (Exc TypeError MultipleValues), draws)
    else (Ok (Blob.mk (Blob.j_identifier json_data) (Blob.j_name json_data)
                (Datum_from_json <$> Blob.j_data json_data)), S draws).
Proof.
  unfold Blob.from_json, Blob.call. run_M.
  set (datums := Blob.VDatum <$> (Datum_from_json <$> Blob.j_data json_data)).
  assert (∀ k, k ∈ (map_to_list datums).*1
               ↔ is_Some (Blob.j_data json_data !! k)) as Hkeys.
  { intros k. rewrite list_elem_of_fmap. split.
    - intros ([k' v] & -> & Hin). apply elem_of_map_to_list in Hin.
      subst datums. rewrite !lookup_fmap in Hin. simpl.
      destruct (Blob.j_data json_data !! k'); [eauto|done].
    - intros [x Hx]. exists (k, Blob.VDatum (Datum_from_json x)).
      split; [done|]. apply elem_of_map_to_list.
      subst datums. by rewrite !lookup_fmap, Hx. }
  destruct (bool_decide (is_Some (Blob.j_data json_data !! "self"))
            || bool_decide (is_Some (Blob.j_data json_data !! "name")))
    eqn:Hreserved.
  - unfold bind_arguments.
    assert (∃ k, k ∈ (map_to_list datums).*1 ∧ k ∈ ["self"; "name"])
      as (k & Hin & Hk).
    { apply orb_true_iff in Hreserved as [H|H]; apply bool_decide_eq_true in H.
      - exists "self". split; [by apply Hkeys|by left].
      - exists "name". split; [by apply Hkeys|]. right. by left. }
    by rewrite (bind_keywords_var_kw_bound ["self"; "name"] 2 _ k Hin Hk).
  - apply orb_false_iff in Hreserved as [H1 H2].
    apply bool_decide_eq_false in H1, H2.
    rewrite bind_arguments_var_kw; [| |intros p Hp; exact Hp].
    2:{ intros k Hin Hk. apply Hkeys in Hin. simpl in Hk.
        apply elem_of_cons in Hk as [->|Hk]; [done|].
        apply list_elem_of_singleton in Hk as ->. done. }
    subst datums. by rewrite blob_init_identifier.
Qed.

(** X11. After [b[k] = d] with a string key and a datum, [b[k]] is [d],
    [k in b] holds, every other key reads as before, the length grows by
    one exactly when [k] was absent, and the identifier and the name are
    untouched. *)
Theorem blob_setitem_getitem (self : Blob.t Datum) (k : string) (d : Datum) :
  ∃ self',
    Blob.__setitem__ self (Blob.VStr k) (Blob.VDatum d) = (Ok (), self')
    ∧ Blob.__getitem__ self' k = Ok d
    ∧ Blob.__contains__ self' k = true
    ∧ (∀ k', k' ≠ k →
         Blob.__getitem__ self' k' = Blob.__getitem__ self k'
         ∧ Blob.__contains__ self' k' = Blob.__contains__ self k')
    ∧ Blob.__len__ self'
      = (if Blob.__contains__ self k then Blob.__len__ self
         else S (Blob.__len__ self))
    ∧ Blob.identifier self' = Blob.identifier self
    ∧ Blob.name self' = Blob.name self.
Proof.
  eexists. split; [reflexivity|].
  unfold Blob.__getitem__, Blob.__contains__, Blob.__len__. simpl.
  split_and!; try done.
  - by rewrite lookup_insert_eq.
  - rewrite lookup_insert_eq. by apply bool_decide_true.
  - intros k' Hne. by rewrite lookup_insert_ne.
  - rewrite map_size_insert. case_bool_decide as Hk.
    + by destruct Hk as [x ->].
    + apply eq_None_not_Some in Hk. by rewrite Hk.
Qed.

(** X12. [del b[k]] on a key that is absent raises [KeyError] and leaves
    the blob as it was; on a key that is present it removes exactly that
    entry: the key is gone, the other keys read as before and the length
    drops by one.  Deleting a key right after setting it on a blob that did
    not have it gives the blob back. *)
Theorem blob_delitem_cases (self : Blob.t Datum) (k : string) (d : Datum) :
  (Blob.__contains__ self k = false →
     Blob.__delitem__ self k = (Raise (Exc KeyError MissingKey), self)
     ∧ Blob.__delitem__
         (Blob.__setitem__ self (Blob.VStr k) (Blob.VDatum d)).2 k
       = (Ok (), self))
  ∧ (Blob.__contains__ self k = true →
     ∃ self',
       Blob.__delitem__ self k = (Ok (), self')
       ∧ Blob.__getitem__ self' k = Raise (Exc KeyError MissingKey)
       ∧ Blob.__contains__ self' k = false
       ∧ (∀ k', k' ≠ k → Blob.__getitem__ self' k' = Blob.__getitem__ self k')
       ∧ S (Blob.__len__ self') = Blob.__len__ self
       ∧ Blob.identifier self' = Blob.identifier self).
Proof.
  unfold Blob.__contains__, Blob.__delitem__, Blob.__getitem__, Blob.__len__.
  split; intros Hk.
  - apply bool_decide_eq_false in Hk. rewrite <-eq_None_not_Some in Hk.
    rewrite Hk. split; [done|]. simpl. rewrite lookup_insert_eq.
    rewrite delete_insert_id by done. by destruct self.
  - apply bool_decide_eq_true in Hk. destruct Hk as [x Hx]. rewrite Hx.
    eexists. split; [reflexivity|]. simpl. split_and!; try done.
    + by rewrite lookup_delete_eq.
    + apply bool_decide_false. rewrite lookup_delete_eq. by intros [? ?].
    + intros k' Hne. by rewrite lookup_delete_ne.
    + rewrite map_size_delete, Hx.
      assert (size (Blob._datums self) ≠ 0); [|lia].
      apply map_size_non_empty_iff. intros Hemp. by rewrite Hemp in Hx.
Qed.

(** X13. [==] on blobs is an equivalence that reads the identifier
    only: it is reflexive, symmetric and transitive, and a blob stays [==]
    to itself through every assignment and deletion, whatever they
    raise. *)
Theorem blob_eq_equivalence (a b c : Blob.t Datum)
    (key value : Blob.value Datum) (k : string) :
  Blob.__eq__ a a = true
  ∧ Blob.__eq__ a b = Blob.__eq__ b a
  ∧ (Blob.__eq__ a b = true → Blob.__eq__ b c = true → Blob.__eq__ a c = true)
  ∧ (Blob.__eq__ a b = true ↔ Blob.identifier a = Blob.identifier b)
  ∧ Blob.__eq__ (Blob.__setitem__ a key value).2 a = true
  ∧ Blob.__eq__ (Blob.__delitem__ a k).2 a = true.
Proof.
  unfold Blob.__eq__. split_and!.
  - apply String.eqb_refl.
  - apply String.eqb_sym.
  - rewrite !String.eqb_eq. congruence.
  - rewrite String.eqb_eq. split; congruence.
  - rewrite String.eqb_eq. by destruct key, value.
  - rewrite String.eqb_eq. unfold Blob.__delitem__.
    by destruct (Blob._datums a !! k).
Qed.


End BlobMapping.

Lemma blob_separate_constructions_differ_witness :
  let datums : gmap string string := {["m1" := "mag"]} in
  ∃ b1 b2 : Blob.t string,
    Blob.__init__ pretty (Blob.VStr "photometry") (Blob.VDatum <$> datums) 0
      = (Ok b1, 1)
    ∧ Blob.__init__ pretty (Blob.VStr "photometry") (Blob.VDatum <$> datums) 1
      = (Ok b2, 2)
    ∧ Blob.identifier b1 ≠ Blob.identifier b2
    ∧ Blob.__eq__ b1 b2 = false.
Proof.
  cbv zeta.
  apply (blob_separate_constructions_differ (pretty : nat → string)
           "photometry" "photometry" {["m1" := "mag"]} {["m1" := "mag"]} 0 1).
  - intros i j H. by apply (inj pretty) in H.
  - lia.
Defined.

(** * Further properties of [metric.py] *)

Section DescriptionNewlines.

Lemma is_newline_true (c : ascii) : is_newline c = true → c = "010"%char.
Proof. unfold is_newline. intros H. by apply Ascii.eqb_eq in H. Qed.

Lemma rstrip_newline_split (text : string) :
  ∃ k, text = rstrip_newline text +:+ newlines k
       ∧ ends_with_newline (rstrip_newline text) = false.
Proof.
  induction text as [|c rest (k & Hrest & Hend)]; [by exists 0|].
  simpl. destruct (rstrip_newline rest) as [|c' kept] eqn:Hr.
  - destruct (is_newline c) eqn:Hc.
    + apply is_newline_true in Hc as ->. exists (S k).
      split; [|done]. rewrite Hrest at 1. reflexivity.
    + exists k. split; [|simpl; by rewrite Hc].
      rewrite Hrest at 1. reflexivity.
  - exists k. split; [|exact Hend].
    rewrite Hrest at 1. reflexivity.
Qed.

End DescriptionNewlines.

Section MetricFields.

Context {Unit : Type}.
Variable Unit_of_string : string → option Unit.

Lemma metric_deserialize_Ok
    (name : Name.arg) (description unit : option string)
    (tags : option (list string))
    (reference : option Metric.reference_record) (m : Metric.t Unit) :
  Metric.deserialize Unit_of_string name description unit tags reference
    = Ok m →
  ∃ text unit_text k,
    description = Some text
    ∧ text = Metric.description m +:+ newlines k
    ∧ ends_with_newline (Metric.description m) = false
    ∧ unit = Some unit_text
    ∧ Unit_of_string unit_text = Some (Metric.unit m)
    ∧ Name.__init__ Name.ANone name Name.ANone = Ok (Metric.name m)
    ∧ Metric.tags m = []
    ∧ Metric.reference_doc m = reference ≫= Metric.ref_doc
    ∧ Metric.reference_page m = reference ≫= Metric.ref_page
    ∧ Metric.reference_url m = reference ≫= Metric.ref_url.
Proof.
  unfold Metric.deserialize. destruct description as [text|]; [|done].
  destruct (rstrip_newline_split text) as (k & Htext & Hend).
  assert (∀ doc url page,
    Metric.__init__ Unit_of_string name (rstrip_newline text) unit None
      doc url page = Ok m →
    ∃ unit_text,
      unit = Some unit_text
      ∧ Unit_of_string unit_text = Some (Metric.unit m)
      ∧ Name.__init__ Name.ANone name Name.ANone = Ok (Metric.name m)
      ∧ Metric.description m = rstrip_newline text
      ∧ Metric.tags m = []
      ∧ Metric.reference_doc m = doc
      ∧ Metric.reference_page m = page
      ∧ Metric.reference_url m = url) as Hinit.
  { intros doc url page. unfold Metric.__init__, Metric.make_unit.
    destruct (Name.__init__ _ _ _) as [n|]; [|done]. simpl.
    destruct unit as [unit_text|]; [|done].
    destruct (Unit_of_string unit_text) as [u|] eqn:Hu; [|done]. simpl.
    intros [= <-]. exists unit_text. by rewrite Hu. }
  destruct reference as [r|]; intros H; apply Hinit in H
    as (unit_text & -> & Hu & Hn & Hd & Ht & Hdoc & Hpage & Hurl);
    exists text, unit_text, k; rewrite Hd; by split_and!.
Qed.

(** X16. A metric returned by [Metric.deserialize] has the description
    given with its trailing newlines removed and nothing else changed, the
    unit its unit string denotes, the name [Name(metric=name)], the
    reference fields of the [reference] object (all [None] without one),
    and no tags, whatever tags are passed. *)
Theorem metric_deserialize_fields
    (name : Name.arg) (description unit : option string)
    (tags : option (list string))
    (reference : option Metric.reference_record) (m : Metric.t Unit) :
  Metric.deserialize Unit_of_string name description unit tags reference
    = Ok m →
  ∃ text unit_text k,
    description = Some text
    ∧ text = Metric.description m +:+ newlines k
    ∧ ends_with_newline (Metric.description m) = false
    ∧ unit = Some unit_text
    ∧ Unit_of_string unit_text = Some (Metric.unit m)
    ∧ Name.__init__ Name.ANone name Name.ANone = Ok (Metric.name m)
    ∧ Metric.tags m = []
    ∧ Metric.reference_doc m = reference ≫= Metric.ref_doc
    ∧ Metric.reference_page m = reference ≫= Metric.ref_page
    ∧ Metric.reference_url m = reference ≫= Metric.ref_url.
Proof.
  intros Hm. exact (metric_deserialize_Ok _ _ _ _ _ _ Hm).
Qed.

(** X17. [Metric.from_json] reads the record's name as a metric name.
    For a record whose description and unit are good, a name of one or two
    parts gives a metric with those parts as its name; a name of three or
    more parts raises the metric parser's [TypeError]; and a record
    without a name gives a metric with the empty name. *)
Theorem metric_from_json_name (json_data : Metric.doc)
    (text unit_text : string) (u : Unit) :
  Metric.doc_description json_data = Some text →
  Metric.doc_unit json_data = Some unit_text →
  Unit_of_string unit_text = Some u →
  match Metric.doc_name json_data with
  | None =>
      ∃ m, Metric.from_json Unit_of_string json_data = Ok m
           ∧ Metric.name m = Name.mk None None None
  | Some s =>
      if bool_decide (List.length (split_dot s) ≤ 2)%nat
      then ∃ m, Metric.from_json Unit_of_string json_data = Ok m
                ∧ present_components (Metric.name m) = split_dot s
                ∧ Name.has_spec (Metric.name m) = false
      else Metric.from_json Unit_of_string json_data
           = Raise (Exc TypeError (CannotParse FMetric s))
  end.
Proof.
  intros Hd Hu Hunit.
  unfold Metric.from_json, Metric.deserialize, Metric.__init__,
    Metric.make_unit, Metric.name_arg.
  rewrite Hd, Hu.
  destruct (Metric.doc_name json_data) as [s|].
  - pose proof (split_dot_not_nil s) as Hne.
    unfold Name.__init__, Name.merge_arguments, Name.init_package,
      Name.init_metric, Name.metric_info, Name._parse_metric_name_string.
    destruct (split_dot s) as [|a [|b [|c l]]]; try done; simpl;
      rewrite ?Hunit;
      destruct (Metric.doc_reference json_data); simpl;
      first [done | by eexists].
  - simpl. rewrite Hunit.
    destruct (Metric.doc_reference json_data); simpl; by eexists.
Qed.

End MetricFields.

Lemma metric_deserialize_fields_witness :
  let m :=
    Metric.mk (Name.mk None (Some "PA1") None) "Photometric repeatability"
      "mmag" [] (Some "LPM-17") None (Some 7%Z) in
  ∃ text unit_text k,
    Some "Photometric repeatability
" = Some text
    ∧ text = Metric.description m +:+ newlines k
    ∧ ends_with_newline (Metric.description m) = false
    ∧ Some "mmag" = Some unit_text
    ∧ Some unit_text = Some (Metric.unit m)
    ∧ Name.__init__ Name.ANone (Name.AStr "PA1") Name.ANone
      = Ok (Metric.name m)
    ∧ Metric.tags m = []
    ∧ Metric.reference_doc m = Some "LPM-17"
    ∧ Metric.reference_page m = Some 7%Z
    ∧ Metric.reference_url m = None.
Proof.
  cbv zeta.
  apply (metric_deserialize_fields Some (Name.AStr "PA1")
           (Some "Photometric repeatability
") (Some "mmag") (Some ["photometry"])
           (Some (Metric.mk_reference (Some "LPM-17") (Some 7%Z) None))).
  reflexivity.
Defined.

Lemma metric_from_json_name_witness :
  let record name :=
    Metric.mk_doc name (Some "Photometric repeatability") (Some "mmag")
      None None in
  (∃ m, Metric.from_json Some (record (Some "validate_drp.PA1")) = Ok m
        ∧ present_components (Metric.name m) = ["validate_drp"; "PA1"]
        ∧ Name.has_spec (Metric.name m) = false)
  ∧ Metric.from_json (Unit := string) Some
      (record (Some "validate_drp.PA1.design"))
    = Raise (Exc TypeError (CannotParse FMetric "validate_drp.PA1.design")).
Proof.
  cbv zeta. split.
  - apply (metric_from_json_name Some
             (Metric.mk_doc (Some "validate_drp.PA1")
                (Some "Photometric repeatability") (Some "mmag") None None)
             "Photometric repeatability" "mmag" "mmag");
      reflexivity.
  - apply (metric_from_json_name Some
             (Metric.mk_doc (Some "validate_drp.PA1.design")
                (Some "Photometric repeatability") (Some "mmag") None None)
             "Photometric repeatability" "mmag" "mmag");
      reflexivity.
Defined.

Section MetricReference.

Context {Unit : Type}.
Variable Unit_eq : Unit → Unit → bool.

Lemma append_empty_inv (a b : string) :
  a +:+ b = EmptyString → a = EmptyString.
Proof. by destruct a. Qed.

Lemma truthy_str_Some (a : option string) :
  Metric.truthy_str a = true → ∃ text, a = Some text ∧ text ≠ EmptyString.
Proof.
  destruct a as [text|]; simpl; [|done].
  intros H. exists text. split; [done|]. intros ->. done.
Qed.

(** X18. The [reference] text of a metric is empty exactly when it has
    neither a document nor a URL (a missing or empty string counts as
    none); without a document it is the URL alone, whatever the page; with
    a document it is the document, then [", p. N"] when the page is a
    non-zero number, then [", URL"] when there is a URL. *)
Theorem metric_reference_cases (m : Metric.t Unit) :
  (Metric.reference m = EmptyString
   ↔ Metric.truthy_str (Metric.reference_doc m) = false
     ∧ Metric.truthy_str (Metric.reference_url m) = false)
  ∧ Metric.reference m
    = (if Metric.truthy_str (Metric.reference_doc m)
       then py_format (Metric.reference_doc m)
            +:+ (if Metric.truthy_int (Metric.reference_page m)
                 then ", p. " +:+ pretty (default 0%Z (Metric.reference_page m))
                 else EmptyString)
            +:+ (if Metric.truthy_str (Metric.reference_url m)
                 then ", " +:+ py_format (Metric.reference_url m)
                 else EmptyString)
       else if Metric.truthy_str (Metric.reference_url m)
            then py_format (Metric.reference_url m)
            else EmptyString).
Proof.
  assert (∀ a b c : string, (a +:+ b) +:+ c = a +:+ b +:+ c) as Hassoc.
  { intros a b c. induction a as [|x a IH]; [done|].
    change (String x ((a +:+ b) +:+ c) = String x (a +:+ b +:+ c)).
    by rewrite IH. }
  assert (∀ a : string, a +:+ EmptyString = a) as Hnil.
  { intros a. induction a as [|x a IH]; [done|].
    change (String x (a +:+ EmptyString) = String x a). by rewrite IH. }
  unfold Metric.reference.
  destruct (Metric.truthy_str (Metric.reference_doc m)) eqn:Hdoc;
    destruct (Metric.truthy_str (Metric.reference_url m)) eqn:Hurl;
    destruct (Metric.truthy_int (Metric.reference_page m)) eqn:Hpage;
    simpl; rewrite ?Hassoc, ?Hnil; (split; [|done]);
    (split; [|by intros [? ?]]); intros Hempty;
    first
      [done
      |apply truthy_str_Some in Hdoc as (doc & Hd & Hne);
       rewrite Hd in Hempty; simpl in Hempty;
       first [by apply append_empty_inv in Hempty | done]
      |apply truthy_str_Some in Hurl as (url & Hu & Hne);
       rewrite Hu in Hempty; simpl in Hempty; done].
Qed.

(** X19. [==] on metrics compares the names and the reference texts
    and nothing else, as long as a unit is [==] to itself: two metrics
    with the same name and reference are equal whatever their
    descriptions, units and tags. *)
Theorem metric_eq_name_and_reference (a b : Metric.t Unit) :
  (∀ u, Unit_eq u u = true) →
  (Metric.__eq__ Unit_eq a b = true
   ↔ Metric.name a = Metric.name b ∧ Metric.reference a = Metric.reference b)
  ∧ ∀ description unit tags,
      Metric.__eq__ Unit_eq a
        (Metric.mk (Metric.name a) description unit tags
           (Metric.reference_doc a) (Metric.reference_url a)
           (Metric.reference_page a)) = true.
Proof.
  intros Hrefl.
  assert (∀ x y, Name.__eq__ x y = true ↔ x = y) as Hname.
  { intros [p m s] [p' m' s']. unfold Name.__eq__, py_eq. simpl.
    rewrite !andb_true_iff, !bool_decide_eq_true. split.
    - intros [[-> ->] ->]. done.
    - intros [= -> -> ->]. done. }
  assert (Metric.__eq__ Unit_eq a b = true
   ↔ Metric.name a = Metric.name b ∧ Metric.reference a = Metric.reference b)
    as Heq.
  { unfold Metric.__eq__.
    rewrite Hrefl, String.eqb_refl, !andb_true_r, andb_true_iff.
    by rewrite Hname, String.eqb_eq. }
  split; [exact Heq|].
  intros description unit tags. unfold Metric.__eq__.
  rewrite Hrefl, String.eqb_refl, !andb_true_r, andb_true_iff.
  rewrite Hname, String.eqb_eq. done.
Qed.

End MetricReference.

Lemma metric_eq_name_and_reference_witness :
  let PA1 := Name.mk (Some "validate_drp") (Some "PA1") None in
  let a := Metric.mk PA1 "Photometric repeatability" "mmag" [] None None None in
  let b := Metric.mk PA1 "Astrometric repeatability" "marcsec" ["astrometry"]
             None None None in
  (Metric.__eq__ String.eqb a b = true
   ↔ Metric.name a = Metric.name b ∧ Metric.reference a = Metric.reference b)
  ∧ Metric.__eq__ String.eqb a b = true.
Proof.
  cbv zeta.
  pose proof (metric_eq_name_and_reference String.eqb
    (Metric.mk (Name.mk (Some "validate_drp") (Some "PA1") None)
       "Photometric repeatability" "mmag" [] None None None)
    (Metric.mk (Name.mk (Some "validate_drp") (Some "PA1") None)
       "Astrometric repeatability" "marcsec" ["astrometry"] None None None)
    String.eqb_refl) as [Hiff Hany].
  split; [exact Hiff|].
  exact (Hany "Astrometric repeatability" "marcsec" ["astrometry"]).
Defined.

Section MetricSetLookup.

Context {Unit : Type}.
Variable Unit_of_string : string → option Unit.

Lemma metric_set_init_snoc (metrics : list (Metric.t Unit)) (m : Metric.t Unit) :
  MetricSet._metrics (MetricSet.__init__ (Some (metrics ++ [m])%list))
  = <[Metric.name m := m]>
      (MetricSet._metrics (MetricSet.__init__ (Some metrics))).
Proof. unfold MetricSet.__init__. simpl. by rewrite foldl_app. Qed.

Lemma as_name_raises (key : Name.arg) (e : PyExc) :
  MetricSet.as_name key = Raise e → is_KeyError e = false.
Proof.
  destruct key as [|s|n]; simpl; [| |done]; unfold Name.__init__;
    (destruct (Name.merge_arguments _ _ _) as [self|e0] eqn:Hm; simpl;
     [unfold Name.check_metric_gap; destruct (Name.metric_gap self);
        [by intros [= <-]|done]
     |intros [= <-]; apply merge_arguments_raises in Hm;
        unfold is_KeyError; by rewrite Hm]).
Qed.

(** X20. In [MetricSet(metrics)] a name is looked up to the last metric
    of the list that has it, and raises [KeyError] when none has it; the
    set is never longer than the list; and [key in metric_set] is true
    exactly when [metric_set[key]] returns, false when it raises
    [KeyError], and raises what the lookup raises otherwise. *)
Theorem metric_set_getitem_last (metrics : list (Metric.t Unit)) :
  let metric_set := MetricSet.__init__ (Some metrics) in
  (∀ key : Name.t,
     MetricSet.__getitem__ metric_set (Name.AName key)
     = match last (filter (fun m => Metric.name m = key) metrics) with
       | Some m => Ok m
       | None => Raise (Exc KeyError MissingKey)
       end)
  ∧ (MetricSet.__len__ metric_set ≤ List.length metrics)%nat
  ∧ ∀ key : Name.arg,
      MetricSet.__contains__ metric_set key
      = match MetricSet.__getitem__ metric_set key with
        | Ok _ => Ok true
        | Raise e => if is_KeyError e then Ok false else Raise e
        end.
Proof.
  cbv zeta. split_and!.
  - intros key. unfold MetricSet.__getitem__. simpl MetricSet.as_name.
    change (Ok key ≫= ?f) with (f key). cbv beta.
    induction metrics as [|m rest IH] using rev_ind; [done|].
    rewrite metric_set_init_snoc, filter_app, filter_cons, filter_nil.
    case_decide as Hname.
    + subst key. rewrite lookup_insert_eq. by rewrite last_snoc.
    + rewrite lookup_insert_ne by done. by rewrite app_nil_r.
  - unfold MetricSet.__len__.
    induction metrics as [|m rest IH] using rev_ind; [done|].
    rewrite metric_set_init_snoc, map_size_insert, length_app. simpl.
    destruct (_ !! _); simpl in *; unfold id; lia.
  - intros key. unfold MetricSet.__contains__, MetricSet.__getitem__.
    destruct (MetricSet.as_name key) as [n|e] eqn:Hkey; simpl.
    + destruct (_ !! n) as [m|] eqn:Hn; simpl.
      * f_equal; try (apply bool_decide_true; eauto).
      * f_equal; try (apply bool_decide_false; by intros [? ?]).
    + by rewrite (as_name_raises _ _ Hkey).
Qed.

(** X21. A definition file that loads gives one metric per record, in
    the order of the file: the metric of a record is named by the file's
    package and the record's key, has a package and a metric component,
    and carries the record's description without trailing newlines and no
    tags.  So a record that cannot be read fails the whole file. *)
Theorem load_metrics_yaml_records (package_name : string)
    (yaml_doc : list (string * Metric.doc)) (metrics : list (Metric.t Unit)) :
  MetricSet._load_metrics_yaml Unit_of_string package_name yaml_doc
    = Ok metrics →
  Forall2
    (fun (record : string * Metric.doc) (m : Metric.t Unit) =>
       Name.__init__ (Name.AStr package_name) (Name.AStr record.1) Name.ANone
         = Ok (Metric.name m)
       ∧ Name.has_package (Metric.name m) = true
       ∧ Name.has_metric (Metric.name m) = true
       ∧ (∃ k, Metric.doc_description record.2
               = Some (Metric.description m +:+ newlines k))
       ∧ ends_with_newline (Metric.description m) = false
       ∧ Metric.tags m = [])
    yaml_doc metrics.
Proof.
  revert metrics.
  induction yaml_doc as [|[metric_name metric_doc] rest IH]; simpl;
    intros metrics.
  - intros [= <-]. constructor.
  - destruct (Name.__init__ _ _ _) as [name|] eqn:Hname; [|done]. simpl.
    destruct (Metric.deserialize _ _ _ _ _ _) as [m|] eqn:Hm; [|done]. simpl.
    destruct (MetricSet._load_metrics_yaml _ _ rest) as [ms|]; [|done].
    simpl. intros [= <-]. constructor; [|by apply IH].
    pose proof (metric_deserialize_name _ _ _ _ _ _ _ Hm) as Hn.
    rewrite Hn. simpl. split_and!.
    + done.
    + by eapply init_package_string.
    + apply init_Ok_inv in Hname as [Hname _]. revert Hname.
      unfold Name.merge_arguments, Name.init_package, Name.package_info,
        Name._parse_fqn_string, Name.init_metric, Name.metric_info,
        Name._parse_metric_name_string, Name.init_spec.
      destruct (split_dot package_name) as [|? [|? [|? [|? ?]]]]; simpl;
        try done;
        destruct (split_dot metric_name) as [|? [|? [|? ?]]]; simpl;
        try done; name_cases; intros Hmade; simplify_eq;
        first [done | by rewrite <-Hmade].
    + apply metric_deserialize_Ok in Hm
        as (text & unit_text & k & Hd & Htext & _).
      exists k. by rewrite Hd, Htext.
    + by apply metric_deserialize_Ok in Hm
        as (text & unit_text & k & _ & _ & Hend & _).
    + by apply metric_deserialize_Ok in Hm
        as (text & unit_text & k & _ & _ & _ & _ & _ & _ & Ht & _).
Qed.

Lemma load_all_app (files1 files2 : list (string * list (string * Metric.doc))) :
  MetricSet.load_all Unit_of_string (files1 ++ files2)
  = metrics1 ← MetricSet.load_all Unit_of_string files1;
    metrics2 ← MetricSet.load_all Unit_of_string files2;
    Ok (metrics1 ++ metrics2)%list.
Proof.
  induction files1 as [|[p d] rest IH]; simpl.
  - by destruct (MetricSet.load_all _ files2).
  - destruct (MetricSet._load_metrics_yaml _ p d) as [new|]; simpl; [|done].
    rewrite IH.
    destruct (MetricSet.load_all _ rest) as [m1|]; simpl; [|done].
    destruct (MetricSet.load_all _ files2) as [m2|]; simpl; [|done].
    by rewrite app_assoc.
Qed.

(** X22. Loading a package concatenates the metrics of its files in
    order and fails as soon as one file fails, with that file's error when
    the files before it load; loading a single file is loading the package
    made of that file. *)
Theorem load_metrics_package_files
    (files1 files2 : list (string * list (string * Metric.doc)))
    (package_name : string) (yaml_doc : list (string * Metric.doc)) :
  MetricSet.load_single_package Unit_of_string package_name yaml_doc
    = MetricSet.load_metrics_package Unit_of_string [(package_name, yaml_doc)]
  ∧ MetricSet.load_metrics_package Unit_of_string (files1 ++ files2)
    = (metrics1 ← MetricSet.load_all Unit_of_string files1;
       metrics2 ← MetricSet.load_all Unit_of_string files2;
       Ok (MetricSet.__init__ (Some (metrics1 ++ metrics2)%list)))
  ∧ ∀ e metrics1,
      MetricSet.load_all Unit_of_string files1 = Ok metrics1 →
      MetricSet._load_metrics_yaml Unit_of_string package_name yaml_doc
        = Raise e →
      MetricSet.load_metrics_package Unit_of_string
        (files1 ++ (package_name, yaml_doc) :: files2) = Raise e.
Proof.
  split_and!.
  - apply load_single_package_as_files.
  - unfold MetricSet.load_metrics_package. rewrite load_all_app.
    destruct (MetricSet.load_all _ files1); simpl; [|done].
    by destruct (MetricSet.load_all _ files2).
  - intros e metrics1 H1 He. unfold MetricSet.load_metrics_package.
    rewrite load_all_app, H1. simpl. by rewrite He.
Qed.

End MetricSetLookup.

Lemma load_metrics_yaml_records_witness :
  let doc :=
    Metric.mk_doc None (Some "Photometric repeatability
") (Some "mmag") (Some ["photometry"]) None in
  let m :=
    Metric.mk (Name.mk (Some "validate_drp") (Some "PA1") None)
      "Photometric repeatability" "mmag" [] None None None in
  Forall2
    (fun (record : string * Metric.doc) (m : Metric.t string) =>
       Name.__init__ (Name.AStr "validate_drp") (Name.AStr record.1) Name.ANone
         = Ok (Metric.name m)
       ∧ Name.has_package (Metric.name m) = true
       ∧ Name.has_metric (Metric.name m) = true
       ∧ (∃ k, Metric.doc_description record.2
               = Some (Metric.description m +:+ newlines k))
       ∧ ends_with_newline (Metric.description m) = false
       ∧ Metric.tags m = [])
    [("PA1", doc)] [m].
Proof.
  cbv zeta.
  apply (load_metrics_yaml_records Some "validate_drp").
  reflexivity.
Defined.

(** * Further properties of [measurement.py] *)

Section MeasurementSets.

Context {Unit Quantity Job : Type}.
Variable Unit_of_string : string → option Unit.
Variable uuid4_hex : nat → string.
Variable quantity_unit : Quantity → Unit.
Variable is_equivalent : Unit → Unit → bool.

#[local] Arguments Measurement.__init__ : simpl never.

Lemma measurement_init_Ok (name : Name.arg) (value : Quantity)
    (metric_set : MetricSet.t Unit) (measurement : Measurement.t Unit Quantity)
    (draws draws' : nat) :
  Measurement.__init__ uuid4_hex quantity_unit is_equivalent name value
    (Some metric_set) draws = (Ok measurement, draws') →
  ∃ metric,
    MetricSet.__getitem__ metric_set name = Ok metric
    ∧ Metric.check_unit quantity_unit is_equivalent metric value = true
    ∧ measurement = Measurement.mk metric value (uuid4_hex draws)
    ∧ draws' = S draws.
Proof.
  unfold Measurement.__init__. run_M.
  destruct (MetricSet.__getitem__ metric_set name) as [metric|]; [|done].
  destruct (Metric.check_unit _ _ metric value) eqn:Hunit; simpl; [|done].
  intros [= <- <-]. by exists metric.
Qed.

Lemma measurement_set_fold (metric_set : MetricSet.t Unit)
    (measurements : gmap string Quantity)
    (made : gmap string (Measurement.t Unit Quantity)) (draws draws' : nat) :
  map_fold (MeasurementSet.measure uuid4_hex quantity_unit is_equivalent
              metric_set) (mret ∅) measurements draws = (Ok made, draws') →
  ∃ position, measured uuid4_hex quantity_unit is_equivalent metric_set measurements made draws draws' position.
Proof.
  revert made draws draws'.
  apply (map_fold_weak_ind
    (fun (r : M (gmap string (Measurement.t Unit Quantity)))
         (m : gmap string Quantity) =>
       ∀ made draws draws',
         r draws = (Ok made, draws') →
         ∃ position, measured uuid4_hex quantity_unit is_equivalent metric_set m made draws draws' position)).
  - intros made draws draws'. run_M. intros [= <- <-].
    exists (fun _ => 0). unfold measured. rewrite map_size_empty.
    split_and!; [lia|done|..].
    + intros k v Hk. by rewrite lookup_empty in Hk.
    + intros k1 k2 _ [v Hk]. by rewrite lookup_empty in Hk.
  - intros i v m r Hi IH made draws draws'.
    unfold MeasurementSet.measure. run_M.
    destruct (r draws) as [[made0|e] draws0] eqn:Hr; [|done].
    destruct (IH _ _ _ Hr) as (position & Hsize & Hnone & Hsome & Hdistinct).
    destruct (Measurement.__init__ _ _ _ _ _ _ draws0)
      as [[measurement|e] draws1] eqn:Hinit; [|done].
    apply measurement_init_Ok in Hinit as (metric & Hget & Hunit & -> & ->).
    intros [= <- <-].
    exists (fun k => if decide (k = i) then draws0 else position k).
    unfold measured. rewrite map_size_insert_None by done.
    split_and!; [lia|..].
    + intros k Hk. apply lookup_insert_None in Hk as [Hk Hne].
      rewrite lookup_insert_ne by done. by apply Hnone.
    + intros k v' Hk. destruct (decide (k = i)) as [->|Hne].
      * rewrite lookup_insert_eq in Hk. injection Hk as <-.
        exists metric. rewrite lookup_insert_eq. split_and!; try done; lia.
      * rewrite lookup_insert_ne in Hk by done.
        destruct (Hsome _ _ Hk) as (metric' & Hmade & Hget' & Hunit' & Hpos).
        exists metric'. rewrite lookup_insert_ne by done.
        split_and!; try done; lia.
    + intros k1 k2 Hne [v1 H1] [v2 H2].
      destruct (decide (k1 = i)) as [->|Hne1];
        destruct (decide (k2 = i)) as [->|Hne2]; try done.
      * rewrite lookup_insert_ne in H2 by done.
        destruct (Hsome _ _ H2) as (? & _ & _ & _ & Hpos). lia.
      * rewrite lookup_insert_ne in H1 by done.
        destruct (Hsome _ _ H1) as (? & _ & _ & _ & Hpos). lia.
      * rewrite lookup_insert_ne in H1, H2 by done. apply Hdistinct; eauto.
Qed.

Lemma measurement_set_init_fold (name : string)
    (measurements : gmap string Quantity) (job : option Job)
    (metric_set : MetricSet.t Unit) (draws : nat) :
  MeasurementSet.__init__ uuid4_hex quantity_unit is_equivalent
    name measurements job (Some metric_set) draws
  = match map_fold (MeasurementSet.measure uuid4_hex quantity_unit
                      is_equivalent metric_set) (mret ∅) measurements draws
    with
    | (Ok made, draws') => (Ok (MeasurementSet.mk name made job), draws')
    | (Raise e, draws') => (Raise e, draws')
    end.
Proof. reflexivity. Qed.


Lemma loaded_bare_lookup
    (files : list (string * list (string * Metric.doc)))
    (metric_set : MetricSet.t Unit) (k : string) :
  MetricSet.load_metrics_package Unit_of_string files = Ok metric_set →
  List.length (split_dot k) = 1 →
  MetricSet.__getitem__ metric_set (Name.AStr k)
  = Raise (Exc KeyError MissingKey).
Proof.
  intros Hload Hlen. unfold MetricSet.__getitem__, MetricSet.as_name.
  destruct (Name.__init__ Name.ANone (Name.AStr k) Name.ANone)
    as [key|e] eqn:Hkey.
  - simpl.
    destruct (MetricSet._metrics metric_set !! key) as [m|] eqn:Hlook; [|done].
    destruct (load_metrics_package_keys _ _ _ _ _ Hload Hlook)
      as (Hname & p & d & Hin & k' & md & Hk & Hinit).
    rewrite Hname in Hinit. apply init_package_string in Hinit.
    by rewrite (init_metric_bare _ _ Hlen Hkey) in Hinit.
  - revert Hkey. unfold Name.__init__, Name.merge_arguments,
      Name.init_package, Name.init_metric, Name.metric_info,
      Name._parse_metric_name_string.
    destruct (split_dot k) as [|? [|? ?]]; simpl in *; done.
Qed.

(** X24. Against a metric set loaded from definition files, a
    measurement named by a string without a dot cannot be made: the
    constructor raises [KeyError] before it looks at the unit and draws no
    identifier, and so does a measurement set that has such a key. *)
Theorem measurement_bare_name_KeyError
    (files : list (string * list (string * Metric.doc)))
    (metric_set : MetricSet.t Unit) (k : string) (value : Quantity)
    (draws : nat) :
  MetricSet.load_metrics_package Unit_of_string files = Ok metric_set →
  List.length (split_dot k) = 1 →
  Measurement.__init__ uuid4_hex quantity_unit is_equivalent
    (Name.AStr k) value (Some metric_set) draws
    = (Raise (Exc KeyError MissingKey), draws)
  ∧ ∀ (name : string) (measurements : gmap string Quantity)
      (job : option Job),
      measurements !! k = Some value →
      ∃ e draws',
        MeasurementSet.__init__ uuid4_hex quantity_unit is_equivalent
          name measurements job (Some metric_set) draws = (Raise e, draws').
Proof.
  intros Hload Hlen.
  pose proof (loaded_bare_lookup _ _ _ Hload Hlen) as Hget. split.
  - unfold Measurement.__init__. run_M. by rewrite Hget.
  - intros name measurements job Hk.
    destruct (MeasurementSet.__init__ _ _ _ name measurements job
                (Some metric_set) draws) as [[self|e] draws'] eqn:Hinit;
      [|eauto].
    revert Hinit. rewrite measurement_set_init_fold.
    destruct (map_fold (MeasurementSet.measure uuid4_hex quantity_unit
                          is_equivalent metric_set) (mret ∅) measurements
                draws) as [[made|e] draws1] eqn:Hfold; [|done].
    apply measurement_set_fold in Hfold as (position & _ & _ & Hsome & _).
    destruct (Hsome _ _ Hk) as (metric & _ & Hget' & _). congruence.
Qed.

End MeasurementSets.


Lemma measurement_bare_name_KeyError_witness :
  let files :=
    [("validate_drp",
      [("PA1", Metric.mk_doc None (Some "Photometric repeatability")
                 (Some "mmag") None None)])] in
  let metric_set :=
    MetricSet.__init__
      (Some [Metric.mk (Name.mk (Some "validate_drp") (Some "PA1") None)
               "Photometric repeatability" "mmag" [] None None None]) in
  Measurement.__init__ pretty (snd : Z * string → string) String.eqb
    (Name.AStr "PA1") (5%Z, "mmag") (Some metric_set) 0
  = (Raise (Exc KeyError MissingKey), 0).
Proof.
  cbv zeta.
  apply (measurement_bare_name_KeyError (Job := unit) Some pretty
           (snd : Z * string → string) String.eqb
           [("validate_drp",
             [("PA1", Metric.mk_doc None (Some "Photometric repeatability")
                        (Some "mmag") None None)])]);
    reflexivity.
Defined.

Lemma link_blobs_resolved_witness :
  let blobs : gmap string string :=
    {["photometry" := "1c7e"; "astrometry" := "9b02"]} in
  let blobs_json : list (Blob.json_record string) :=
    [Blob.mk_json "1c7e" "PhotometryBlob" {["mag" := "21.5"]}] in
  ∃ linked_blobs draws',
    Measurement.link_blobs (fun text : string => text) pretty blobs
      (Some blobs_json) 0 = (Ok linked_blobs, draws')
    ∧ link_resolved blobs_json linked_blobs "photometry" (Some "1c7e")
    ∧ link_resolved blobs_json linked_blobs "astrometry" (Some "9b02")
    ∧ link_resolved blobs_json linked_blobs "extras" None.
Proof.
  cbv zeta.
  destruct (Measurement.link_blobs (fun text : string => text) pretty
              ({["photometry" := "1c7e"; "astrometry" := "9b02"]}
                 : gmap string string)
              (Some [Blob.mk_json "1c7e" "PhotometryBlob" {["mag" := "21.5"]}])
              0) as [[linked_blobs|e] draws'] eqn:Hlinks.
  - exists linked_blobs, draws'. split; [reflexivity|].
    pose proof (link_blobs_resolved _ _ _ _ _ _ _ Hlinks) as Hall.
    split_and!.
    + exact (Hall "photometry").
    + exact (Hall "astrometry").
    + exact (Hall "extras").
  - vm_compute in Hlinks. discriminate.
Defined.
